(** * The Docker runtime adapter of minikube (pkg/minikube/cruntime/docker.go)

    A shallow embedding of the adapter and of the external collaborators it
    talks to, followed by the properties of the adapter that the design
    document states.  The embedding covers availability, disabling, the
    image and container operations, the kubelet options, preloading and the
    network plugin configurator; logging ([klog]) and timing are left out.

    Go strings are byte strings and are modelled by [string]; [int] values by
    [Z]; [map[string]string] by [gmap string string]; [map[string]struct{}]
    by [gset string].  Calls that leave the adapter (command runner, service
    manager, PATH lookup, CRI backend, preload helpers) are the nodes of a
    program tree [Prog], run against an arbitrary stateful environment. *)

From Stdlib Require Import ZArith List Bool Ascii String DecimalString Lia.
From stdpp Require Import base option list gmap strings.

Local Open Scope string_scope.
Local Open Scope list_scope.

(** ** Go's [strings] package, as far as the adapter uses it *)

Module strings.

Definition HasPrefix (s pre : string) : bool := String.prefix pre s.

Fixpoint drop (n : nat) (s : string) : string :=
  match n, s with
  | O, _ => s
  | S _, EmptyString => EmptyString
  | S n', String _ s' => drop n' s'
  end.

Definition TrimPrefix (s pre : string) : string :=
  if HasPrefix s pre then drop (String.length pre) s else s.

(** [Contains s substr]: [substr] occurs somewhere in [s]. *)
Fixpoint Contains (s substr : string) : bool :=
  if String.prefix substr s then true
  else match s with
       | EmptyString => false
       | String _ s' => Contains s' substr
       end.

(** [Cut s sep] splits [s] around the first occurrence of [sep]. *)
Fixpoint Cut (s sep : string) : option (string * string) :=
  if String.prefix sep s then Some (EmptyString, drop (String.length sep) s)
  else match s with
       | EmptyString => None
       | String c s' =>
           match Cut s' sep with
           | Some (a, b) => Some (String c a, b)
           | None => None
           end
       end.

(** At most [cuts] splits, the rest of the string is the last element. *)
Fixpoint genSplit (cuts : nat) (s sep : string) : list string :=
  match cuts with
  | O => [s]
  | S cuts' =>
      match Cut s sep with
      | Some (a, b) => a :: genSplit cuts' b sep
      | None => [s]
      end
  end.

(** [SplitN s sep n] for a non-empty separator, which is what every call
    site of the adapter passes: [n = 0] gives no element, [n > 0] at most
    [n] elements, [n < 0] all of them. *)
Definition SplitN (s sep : string) (n : Z) : list string :=
  if (n =? 0)%Z then []
  else if (n <? 0)%Z then genSplit (String.length s) s sep
  else genSplit (Z.to_nat n - 1) s sep.

Definition Split (s sep : string) : list string := SplitN s sep (-1).

Definition Join (elems : list string) (sep : string) : string :=
  String.concat sep elems.

End strings.

(** The line feed, written ["\n"] in the source. *)
Definition LF : string := String (ascii_of_nat 10) EmptyString.

(** [fmt.Sprintf("%d", n)]. *)
Definition itoa (n : Z) : string := NilZero.string_of_int (Z.to_int n).

(** ** Registry-prefix normalisation *)

Definition addDockerIO (name : string) : string :=
  let p := strings.SplitN name "/" 2 in
  if (1 <? length p)%nat && strings.Contains (nth 0 p "") "." then
    let reg := nth 0 p "" in
    let img := nth 1 p "" in
    reg +:+ "/" +:+ img
  else
    let reg := "docker.io" in
    let p := strings.SplitN name "/" 2 in
    let '(usr, img) :=
      if (1 <? length p)%nat then (nth 0 p "", nth 1 p "")
      else ("library", name) in
    reg +:+ "/" +:+ usr +:+ "/" +:+ img.

(** The part of a name before its first slash (the whole name when it has
    none): the "first path segment" of the design document. *)
Fixpoint first_segment (s : string) : string :=
  match s with
  | EmptyString => EmptyString
  | String c s' => if Ascii.eqb c "/" then EmptyString else String c (first_segment s')
  end.

Definition has_slash (s : string) : bool := strings.Contains s "/".
Definition has_dot (s : string) : bool := strings.Contains s ".".

(** ** Semantic versions (github.com/blang/semver/v4), comparison only *)

Module semver.

Record PRVersion := {
  VersionStr : string;
  VersionNum : N;
  IsNum : bool
}.

Record Version := {
  Major : N;
  Minor : N;
  Patch : N;
  Pre : list PRVersion;
  Build : list string
}.

Definition cmpN (a b : N) : Z :=
  if (a =? b)%N then 0%Z else if (b <? a)%N then 1%Z else (-1)%Z.

Definition cmpStr (a b : string) : Z :=
  match String.compare a b with
  | Eq => 0%Z
  | Gt => 1%Z
  | Lt => (-1)%Z
  end.

Definition PRCompare (v o : PRVersion) : Z :=
  if IsNum v && negb (IsNum o) then (-1)%Z
  else if negb (IsNum v) && IsNum o then 1%Z
  else if IsNum v && IsNum o then cmpN (VersionNum v) (VersionNum o)
  else cmpStr (VersionStr v) (VersionStr o).

(** The loop over the common pre-release identifiers and the length test
    that follows it. *)
Fixpoint comparePre (v o : list PRVersion) : Z :=
  match v, o with
  | [], [] => 0%Z
  | [], _ :: _ => (-1)%Z
  | _ :: _, [] => 1%Z
  | a :: v', b :: o' =>
      let comp := PRCompare a b in
      if (comp =? 0)%Z then comparePre v' o'
      else if (comp =? 1)%Z then 1%Z else (-1)%Z
  end.

Definition Compare (v o : Version) : Z :=
  if negb (Major v =? Major o)%N then
    (if (Major o <? Major v)%N then 1%Z else (-1)%Z)
  else if negb (Minor v =? Minor o)%N then
    (if (Minor o <? Minor v)%N then 1%Z else (-1)%Z)
  else if negb (Patch v =? Patch o)%N then
    (if (Patch o <? Patch v)%N then 1%Z else (-1)%Z)
  else
    match Pre v, Pre o with
    | [], [] => 0%Z
    | [], _ :: _ => 1%Z
    | _ :: _, [] => (-1)%Z
    | _, _ => comparePre (Pre v) (Pre o)
    end.

Definition GTE (v o : Version) : bool := (0 <=? Compare v o)%Z.

End semver.

(** ** Errors *)

(** Go's [error] values as the adapter builds and sees them: the
    distinguished [ErrISOFeature], errors wrapped with an operation label
    ([errors.Wrap]), and plain messages ([errors.New], and whatever the
    collaborators return). *)
Inductive Err : Type :=
| ErrISOFeature (missing : string)
| ErrWrap (cause : Err) (message : string)
| ErrNew (message : string).

(** A Go [error]: [None] is [nil]. *)
Abbreviation error := (option Err).

Definition NewErrISOFeature (missing : string) : Err := ErrISOFeature missing.

Fixpoint Error (e : Err) : string :=
  match e with
  | ErrISOFeature missing => missing
  | ErrWrap cause message => message +:+ ": " +:+ Error cause
  | ErrNew message => message
  end.

(** Matching an error by kind ([errors.As] with [*ErrISOFeature]). *)
Definition isISOFeature (e : Err) : option string :=
  match e with
  | ErrISOFeature missing => Some missing
  | _ => None
  end.

#[global] Instance Err_eq_dec : EqDecision Err.
Proof. solve_decision. Defined.

(** ** Data exchanged with the collaborators *)

(** An [*exec.Cmd]: [Args] holds the whole argument vector, the command
    name first, as [exec.Command] builds it.  [Attached] records that the
    standard streams were wired to those of the process. *)
Record Cmd := {
  Path : string;
  Args : list string;
  CmdEnv : list string;
  Attached : bool
}.

Module exec.
Definition Command (name : string) (arg : list string) : Cmd :=
  {| Path := name; Args := name :: arg; CmdEnv := []; Attached := false |}.
End exec.

#[global] Instance Cmd_eq_dec : EqDecision Cmd.
Proof. solve_decision. Defined.

(** [command.RunResult]: the captured output streams. *)
Record RunResult := {
  Stdout : string;
  Stderr : string
}.

#[global] Instance RunResult_eq_dec : EqDecision RunResult.
Proof. solve_decision. Defined.

(** Assets handed to [Copy] and [Remove], kept as the constructor call of
    package [assets] that made them. *)
Inductive Asset : Type :=
| NewMemoryAsset (data targetDir targetName permissions : string)
| NewMemoryAssetTarget (data targetPath permissions : string)
| FileAsset (src targetDir targetName permissions : string).

#[global] Instance Asset_eq_dec : EqDecision Asset.
Proof. solve_decision. Defined.

(** The service manager's actions ([sysinit.Manager]). *)
Module sysinit.
Inductive Action : Set :=
| Enable | Disable | Start | Stop | ForceStop | Restart | Mask | Unmask.

#[global] Instance Action_eq_dec : EqDecision Action.
Proof. solve_decision. Defined.
End sysinit.

Inductive ContainerState : Set := All | Running | Paused.

#[global] Instance ContainerState_eq_dec : EqDecision ContainerState.
Proof. solve_decision. Defined.

Record ListContainersOptions := {
  State : ContainerState;
  Name : string;
  Namespaces : list string
}.

#[global] Instance ListContainersOptions_eq_dec : EqDecision ListContainersOptions.
Proof. solve_decision. Defined.

Record ListImagesOptions := { }.

Record ListImage := {
  ID : string;
  RepoDigests : list string;
  RepoTags : list string;
  Size : string
}.

(** The row type that [ListImages] decodes each output line into. *)
Record dockerImage := {
  jsonID : string;
  jsonRepository : string;
  jsonTag : string;
  jsonSize : string
}.

(** The data given to the service-override template. *)
Record TemplateOpts := {
  NetworkPlugin : string;
  ExtraArguments : string
}.

#[global] Instance TemplateOpts_eq_dec : EqDecision TemplateOpts.
Proof. solve_decision. Defined.

(** The part of [config.ClusterConfig] that [Preload] reads.  The field
    [KubernetesConfig] of the source carries a trailing underscore here, its
    name being taken by its type. *)
Module config.
Record KubernetesConfig := {
  KubernetesVersion : string;
  ContainerRuntime : string;
  ImageRepository : string
}.

Record ClusterConfig := {
  Driver : string;
  KubernetesConfig_ : KubernetesConfig
}.
End config.

(** ** Calls that leave the adapter *)

(** Every call the adapter makes to a collaborator.  The first group is the
    command execution backend ([Runner]), the second the service manager
    ([Init]), then the PATH lookup of [os/exec], the CRI backend (functions
    of this package that the adapter delegates to), and the helpers of the
    preload path (packages [download], [images], [docker], [assets]) and of
    the template engine. *)
Inductive Call : Type :=
| RunCmd (c : Cmd)
| Copy (a : Asset)
| Remove (a : Asset)
| Init (a : sysinit.Action) (svc : string)
| InitActive (svc : string)
| LookPath (file : string)
| pullCRIImage (name : string)
| removeCRIImage (name : string)
| listCRIContainers (root : string) (o : ListContainersOptions)
| killCRIContainers (ids : list string)
| stopCRIContainers (ids : list string)
| pauseCRIContainers (root : string) (ids : list string)
| unpauseCRIContainers (root : string) (ids : list string)
| criContainerLogCmd (id : string) (len : Z) (follow : bool)
| PreloadExists (k8sVersion containerRuntime driver : string)
| Kubeadm (imageRepository version : string)
| StorageSave
| StorageUpdate
| NewFileAsset (src targetDir targetName permissions : string)
| AssetClose (a : Asset)
| TemplateExecute (name : string) (data : TemplateOpts).

#[global] Instance Call_eq_dec : EqDecision Call.
Proof. solve_decision. Defined.

(** What each call gives back.  A Go pair [(value, err)] stays a pair. *)
Definition Resp (c : Call) : Type :=
  match c with
  | RunCmd _ => (RunResult * error)%type
  | Copy _ | Remove _ => error
  | Init _ _ => error
  | InitActive _ => bool
  | LookPath _ => error
  | pullCRIImage _ | removeCRIImage _ => error
  | listCRIContainers _ _ => (list string * error)%type
  | killCRIContainers _ | stopCRIContainers _ => error
  | pauseCRIContainers _ _ | unpauseCRIContainers _ _ => error
  | criContainerLogCmd _ _ _ => string
  | PreloadExists _ _ _ => bool
  | Kubeadm _ _ => (list string * error)%type
  | StorageSave | StorageUpdate => error
  | NewFileAsset _ _ _ _ => error
  | AssetClose _ => error
  | TemplateExecute _ _ => error
  end.

(** Calls into the CRI backend. *)
Definition is_cri (c : Call) : bool :=
  match c with
  | pullCRIImage _ | removeCRIImage _ | listCRIContainers _ _
  | killCRIContainers _ | stopCRIContainers _
  | pauseCRIContainers _ _ | unpauseCRIContainers _ _
  | criContainerLogCmd _ _ _ => true
  | _ => false
  end.

Definition is_RunCmd (c : Call) : bool :=
  match c with RunCmd _ => true | _ => false end.

Definition is_Copy (c : Call) : bool :=
  match c with Copy _ => true | _ => false end.

Definition is_Init (c : Call) : bool :=
  match c with Init _ _ => true | _ => false end.

Definition is_LookPath (c : Call) : bool :=
  match c with LookPath _ => true | _ => false end.

(** ** Programs over the calls *)

Inductive Prog (A : Type) : Type :=
| Ret (a : A)
| Vis (c : Call) (k : Resp c -> Prog A).

Arguments Ret {A} a.
Arguments Vis {A} c k.

Fixpoint bind {A B : Type} (p : Prog A) (f : A -> Prog B) : Prog B :=
  match p with
  | Ret a => f a
  | Vis c k => Vis c (fun x => bind (k x) f)
  end.

Definition call (c : Call) : Prog (Resp c) := Vis c Ret.

#[global] Instance Prog_ret : MRet Prog := @Ret.
#[global] Instance Prog_bind : MBind Prog := fun A B f p => bind p f.

(** A call together with the answer it got. *)
Definition Interaction : Type := sigT Resp.

Definition answered (c : Call) (x : Resp c) : Interaction := existT c x.
Notation "c ↦ x" := (answered c x) (at level 55, no associativity).

Definition calls (t : list Interaction) : list Call := map (@projT1 _ _) t.

(** The commands a trace sent to the command execution backend. *)
Definition commands (t : list Interaction) : list Cmd :=
  omap (fun c => match c with RunCmd cmd => Some cmd | _ => None end) (calls t).

(** The error an answered call reported, for the calls that report one. *)
Definition failure (i : Interaction) : error :=
  match i with
  | existT c x =>
      match c return Resp c -> error with
      | RunCmd _ => fun x => snd x
      | Copy _ | Remove _ => fun x => x
      | Init _ _ => fun x => x
      | LookPath _ => fun x => x
      | pullCRIImage _ | removeCRIImage _ => fun x => x
      | listCRIContainers _ _ => fun x => snd x
      | killCRIContainers _ | stopCRIContainers _ => fun x => x
      | pauseCRIContainers _ _ | unpauseCRIContainers _ _ => fun x => x
      | Kubeadm _ _ => fun x => snd x
      | StorageSave | StorageUpdate => fun x => x
      | NewFileAsset _ _ _ _ => fun x => x
      | AssetClose _ => fun x => x
      | TemplateExecute _ _ => fun x => x
      | InitActive _ | criContainerLogCmd _ _ _ | PreloadExists _ _ _ => fun _ => None
      end x
  end.

(** An environment answers every call and moves to a new state. *)
Definition Env (W : Type) : Type := forall c : Call, W -> Resp c * W.

Fixpoint run {W A : Type} (env : Env W) (p : Prog A) (w : W)
  : A * list Interaction * W :=
  match p with
  | Ret a => (a, [], w)
  | Vis c k =>
      let '(x, w1) := env c w in
      let '(a, t, w2) := run env (k x) w1 in
      (a, (c ↦ x) :: t, w2)
  end.

Definition result {W A : Type} (out : A * list Interaction * W) : A := fst (fst out).
Definition trace {W A : Type} (out : A * list Interaction * W) : list Interaction :=
  snd (fst out).

(** [exec p t a]: program [p] can make the interactions [t], in that order,
    and then return [a]. *)
Inductive exec {A : Type} : Prog A -> list Interaction -> A -> Prop :=
| exec_Ret (a : A) : exec (Ret a) [] a
| exec_Vis (c : Call) (k : Resp c -> Prog A) (x : Resp c) t a :
    exec (k x) t a -> exec (Vis c k) ((c ↦ x) :: t) a.

Notation "x <- p ;; q" := (bind p (fun x => q))
  (at level 100, p at next level, right associativity).

(** ** Linking the adapter with an implementation of the CRI backend *)

(** An implementation of the CRI backend functions, each a program over the
    same calls (it is handed the adapter's own [Runner]). *)
Record CRIBackend := {
  impl_pullCRIImage : string -> Prog error;
  impl_removeCRIImage : string -> Prog error;
  impl_listCRIContainers : string -> ListContainersOptions -> Prog (list string * error);
  impl_killCRIContainers : list string -> Prog error;
  impl_stopCRIContainers : list string -> Prog error;
  impl_pauseCRIContainers : string -> list string -> Prog error;
  impl_unpauseCRIContainers : string -> list string -> Prog error;
  impl_criContainerLogCmd : string -> Z -> bool -> Prog string
}.

Definition implement (B : CRIBackend) (c : Call) : option (Prog (Resp c)) :=
  match c as c0 return option (Prog (Resp c0)) with
  | pullCRIImage name => Some (impl_pullCRIImage B name)
  | removeCRIImage name => Some (impl_removeCRIImage B name)
  | listCRIContainers root o => Some (impl_listCRIContainers B root o)
  | killCRIContainers ids => Some (impl_killCRIContainers B ids)
  | stopCRIContainers ids => Some (impl_stopCRIContainers B ids)
  | pauseCRIContainers root ids => Some (impl_pauseCRIContainers B root ids)
  | unpauseCRIContainers root ids => Some (impl_unpauseCRIContainers B root ids)
  | criContainerLogCmd id len follow => Some (impl_criContainerLogCmd B id len follow)
  | _ => None
  end.

(** [link B p]: program [p] with each of its calls into the CRI backend
    replaced by the body that [B] gives for it. *)
Fixpoint link (B : CRIBackend) {A : Type} (p : Prog A) : Prog A :=
  match p with
  | Ret a => Ret a
  | Vis c k =>
      match implement B c with
      | Some body => bind body (fun x => link B (k x))
      | None => Vis c (fun x => link B (k x))
      end
  end.

(** ** What the adapter takes from other packages as pure functions *)

Class Externals := {
  (** [image.TrimDockerIO] *)
  TrimDockerIO : string -> string;
  (** [download.TarballPath] *)
  TarballPath : string -> string -> string;
  (** [cni.ConfDir] *)
  ConfDir : string;
  (** the [Output] method of [command.RunResult] *)
  Output : RunResult -> string;
  (** [json.Unmarshal] into a [dockerImage] *)
  json_Unmarshal : string -> dockerImage * error;
  (** [units.FromHumanSize] *)
  FromHumanSize : string -> Z * error;
  (** [os.Environ] *)
  os_Environ : list string
}.

(** [path.Join] and [path.Dir] on paths without [.] and [..] elements:
    repeated slashes collapse, a trailing slash goes. *)
Module path.

Fixpoint squeeze (after_slash : bool) (s : string) : string :=
  match s with
  | EmptyString => EmptyString
  | String c s' =>
      if Ascii.eqb c "/" then
        (if after_slash then squeeze true s' else String c (squeeze true s'))
      else String c (squeeze false s')
  end.

Fixpoint dropLastSlash (s : string) : string :=
  match s with
  | EmptyString => EmptyString
  | String c EmptyString => if Ascii.eqb c "/" then EmptyString else s
  | String c s' => String c (dropLastSlash s')
  end.

Definition Clean (p : string) : string :=
  if String.eqb p "" then "."
  else
    let q := squeeze false p in
    if String.eqb q "/" then "/" else dropLastSlash q.

Definition Join (elem : list string) : string :=
  let nonempty := filter (fun e => negb (String.eqb e "")) elem in
  match nonempty with
  | [] => ""
  | _ => Clean (String.concat "/" nonempty)
  end.

(** The text up to and including the last slash. *)
Fixpoint dirPart (s : string) : string :=
  match s with
  | EmptyString => EmptyString
  | String c s' =>
      if strings.Contains s "/" then String c (dirPart s') else EmptyString
  end.

Definition Dir (p : string) : string := Clean (dirPart p).

End path.

(** ** The Docker adapter *)

Definition KubernetesContainerPrefix : string := "k8s_".

Definition InternalDockerCRISocket : string := "/var/run/dockershim.sock".
Definition ExternalDockerCRISocket : string := "/var/run/cri-dockerd.sock".

(** Docker runtime state.  The [Runner] and [Init] fields of the source are
    the environment that answers the calls. *)
Record Docker := {
  Socket : string;
  ImageRepository : string;
  KubernetesVersion : semver.Version;
  UseCRI : bool;
  CRIService : string
}.

Definition Version (r : Docker) : Prog (string * error) :=
  let c := exec.Command "docker" ["version"; "--format"; "{{.Server.Version}}"] in
  x <- call (RunCmd c) ;;
  let '(rr, err) := x in
  match err with
  | Some e => Ret ("", Some e)
  | None => Ret (nth 0 (strings.Split (Stdout rr) LF) "", None)
  end.

Definition SocketPath (r : Docker) : string :=
  if negb (String.eqb (Socket r) "") then Socket r
  else InternalDockerCRISocket.

Definition v1_24 : semver.Version :=
  {| semver.Major := 1; semver.Minor := 24; semver.Patch := 0;
     semver.Pre := []; semver.Build := [] |}.

Definition Available (r : Docker) : Prog error :=
  let docker := (err <- call (LookPath "docker") ;; Ret err) in
  if semver.GTE (KubernetesVersion r) v1_24 then
    err <- call (LookPath "cri-dockerd") ;;
    match err with
    | Some e => Ret (Some e)
    | None =>
        err <- call (LookPath "dockerd") ;;
        match err with
        | Some e => Ret (Some e)
        | None => docker
        end
    end
  else docker.

Definition Active (r : Docker) : Prog bool :=
  call (InitActive "docker").

Definition Restart (r : Docker) : Prog error :=
  call (Init sysinit.Restart "docker").

Definition Disable (r : Docker) : Prog error :=
  let docker :=
    (* a failure to stop the socket is only logged *)
    _ <- call (Init sysinit.ForceStop "docker.socket") ;;
    err <- call (Init sysinit.ForceStop "docker.service") ;;
    match err with
    | Some e => Ret (Some e)
    | None =>
        (* a failure to disable the socket is only logged *)
        _ <- call (Init sysinit.Disable "docker.socket") ;;
        call (Init sysinit.Mask "docker.service")
    end in
  if negb (String.eqb (CRIService r) "") then
    err <- call (Init sysinit.Stop (CRIService r)) ;;
    match err with
    | Some e => Ret (Some e)
    | None =>
        err <- call (Init sysinit.Disable (CRIService r)) ;;
        match err with
        | Some e => Ret (Some e)
        | None => docker
        end
    end
  else docker.

Definition KubeletOptions (r : Docker) : gmap string string :=
  if UseCRI r then
    {[ "container-runtime" := "remote";
       "container-runtime-endpoint" := SocketPath r;
       "image-service-endpoint" := SocketPath r;
       "runtime-request-timeout" := "15m" ]}
  else
    {[ "container-runtime" := "docker" ]}.

Definition LoadImage (r : Docker) (path : string) : Prog error :=
  let c := exec.Command "/bin/bash"
             ["-c"; "sudo cat " +:+ path +:+ " | docker load"] in
  x <- call (RunCmd c) ;;
  match snd x with
  | Some e => Ret (Some (ErrWrap e "loadimage docker"))
  | None => Ret None
  end.

Definition PullImage (r : Docker) (name : string) : Prog error :=
  if UseCRI r then call (pullCRIImage name)
  else
    let c := exec.Command "docker" ["pull"; name] in
    x <- call (RunCmd c) ;;
    match snd x with
    | Some e => Ret (Some (ErrWrap e "pull image docker"))
    | None => Ret None
    end.

Definition SaveImage (r : Docker) (name path : string) : Prog error :=
  let c := exec.Command "/bin/bash"
             ["-c"; "docker save '" +:+ name +:+ "' | sudo tee " +:+ path +:+ " >/dev/null"] in
  x <- call (RunCmd c) ;;
  match snd x with
  | Some e => Ret (Some (ErrWrap e "saveimage docker"))
  | None => Ret None
  end.

Definition RemoveImage (r : Docker) (name : string) : Prog error :=
  if UseCRI r then call (removeCRIImage name)
  else
    let c := exec.Command "docker" ["rmi"; name] in
    x <- call (RunCmd c) ;;
    match snd x with
    | Some e => Ret (Some (ErrWrap e "remove image docker"))
    | None => Ret None
    end.

Definition TagImage (r : Docker) (source target : string) : Prog error :=
  let c := exec.Command "docker" ["tag"; source; target] in
  x <- call (RunCmd c) ;;
  match snd x with
  | Some e => Ret (Some (ErrWrap e "tag image docker"))
  | None => Ret None
  end.

Definition PushImage (r : Docker) (name : string) : Prog error :=
  let c := exec.Command "docker" ["push"; name] in
  x <- call (RunCmd c) ;;
  match snd x with
  | Some e => Ret (Some (ErrWrap e "push image docker"))
  | None => Ret None
  end.

Definition CGroupDriver (r : Docker) : Prog (string * error) :=
  let c := exec.Command "docker" ["info"; "--format"; "{{.CgroupDriver}}"] in
  x <- call (RunCmd c) ;;
  let '(rr, err) := x in
  match err with
  | Some e => Ret ("", Some e)
  | None => Ret (nth 0 (strings.Split (Stdout rr) LF) "", None)
  end.

Definition listContainersArgs (o : ListContainersOptions) : list string :=
  let args := ["ps"] in
  let args :=
    match State o with
    | All => args ++ ["-a"]
    | Running => args ++ ["--filter"; "status=running"]
    | Paused => args ++ ["--filter"; "status=paused"]
    end in
  let nameFilter := KubernetesContainerPrefix +:+ Name o in
  let nameFilter :=
    if (0 <? length (Namespaces o))%nat then
      nameFilter +:+ ".*_(" +:+ strings.Join (Namespaces o) "|" +:+ ")_"
    else nameFilter in
  args ++ ["--filter=name=" +:+ nameFilter; "--format={{.ID}}"].

Definition ListContainers (r : Docker) (o : ListContainersOptions)
  : Prog (list string * error) :=
  if UseCRI r then call (listCRIContainers "" o)
  else
    x <- call (RunCmd (exec.Command "docker" (listContainersArgs o))) ;;
    let '(rr, err) := x in
    match err with
    | Some e => Ret ([], Some (ErrWrap e "docker"))
    | None =>
        let ids := filter (fun line => negb (String.eqb line ""))
                     (strings.Split (Stdout rr) LF) in
        Ret (ids, None)
    end.

Definition KillContainers (r : Docker) (ids : list string) : Prog error :=
  if UseCRI r then call (killCRIContainers ids)
  else if (length ids =? 0)%nat then Ret None
  else
    let args := ["rm"; "-f"] ++ ids in
    let c := exec.Command "docker" args in
    x <- call (RunCmd c) ;;
    match snd x with
    | Some e => Ret (Some (ErrWrap e "killing containers docker"))
    | None => Ret None
    end.

Definition StopContainers (r : Docker) (ids : list string) : Prog error :=
  if UseCRI r then call (stopCRIContainers ids)
  else if (length ids =? 0)%nat then Ret None
  else
    let args := ["stop"] ++ ids in
    let c := exec.Command "docker" args in
    x <- call (RunCmd c) ;;
    match snd x with
    | Some e => Ret (Some (ErrWrap e "docker"))
    | None => Ret None
    end.

Definition PauseContainers (r : Docker) (ids : list string) : Prog error :=
  if UseCRI r then call (pauseCRIContainers "" ids)
  else if (length ids =? 0)%nat then Ret None
  else
    let args := ["pause"] ++ ids in
    let c := exec.Command "docker" args in
    x <- call (RunCmd c) ;;
    match snd x with
    | Some e => Ret (Some (ErrWrap e "docker"))
    | None => Ret None
    end.

Definition UnpauseContainers (r : Docker) (ids : list string) : Prog error :=
  if UseCRI r then call (unpauseCRIContainers "" ids)
  else if (length ids =? 0)%nat then Ret None
  else
    let args := ["unpause"] ++ ids in
    let c := exec.Command "docker" args in
    x <- call (RunCmd c) ;;
    match snd x with
    | Some e => Ret (Some (ErrWrap e "docker"))
    | None => Ret None
    end.

Definition ContainerLogCmd (r : Docker) (id : string) (len : Z) (follow : bool)
  : Prog string :=
  if UseCRI r then call (criContainerLogCmd id len follow)
  else
    let cmd := "docker logs " in
    let cmd := if (0 <? len)%Z then cmd +:+ "--tail " +:+ itoa len +:+ " " else cmd in
    let cmd := if follow then cmd +:+ "--follow " else cmd in
    Ret (cmd +:+ id).

Definition SystemLogCmd (r : Docker) (len : Z) : string :=
  "sudo journalctl -u docker -n " +:+ itoa len.

(** The template of the service override, executed on its data. *)
Definition CRIDockerServiceConfFile : string :=
  "/etc/systemd/system/cri-docker.service.d/10-cni.conf".

Definition CRIDockerServiceConfTemplate (data : TemplateOpts) : string :=
  "[Service]" +:+ LF +:+
  "ExecStart=" +:+ LF +:+
  "ExecStart=/usr/bin/cri-dockerd --container-runtime-endpoint fd:// --network-plugin="
    +:+ NetworkPlugin data +:+ ExtraArguments data.

Definition CNIBinDir : string := "/opt/cni/bin".
Definition CNIConfDir : string := "/etc/cni/net.d".
Definition CNICacheDir : string := "/var/lib/cni/cache".

Section Adapter.

Context `{Externals}.

(** The loop of [ListImages] over the output lines; [result] is the slice
    built so far.  A row that fails to decode ends the call. *)
Fixpoint listImagesRows (images : list string) (result : list ListImage)
  : list ListImage * error :=
  match images with
  | [] => (result, None)
  | img :: rest =>
      if String.eqb img "" then listImagesRows rest result
      else
        let '(jsonImage, err) := json_Unmarshal img in
        match err with
        | Some e => ([], Some (ErrWrap e "Image convert problem"))
        | None =>
            let '(size, err) := FromHumanSize (jsonSize jsonImage) in
            match err with
            | Some e => ([], Some (ErrWrap e "Image size convert problem"))
            | None =>
                let repoTag := jsonRepository jsonImage +:+ ":" +:+ jsonTag jsonImage in
                listImagesRows rest
                  (result ++
                     [{| ID := strings.TrimPrefix (jsonID jsonImage) "sha256:";
                         RepoDigests := [];
                         RepoTags := [addDockerIO repoTag];
                         Size := itoa size |}])
            end
        end
  end.

Definition ListImages (r : Docker) (_ : ListImagesOptions)
  : Prog (list ListImage * error) :=
  let c := exec.Command "docker" ["images"; "--no-trunc"; "--format"; "{{json .}}"] in
  x <- call (RunCmd c) ;;
  let '(rr, err) := x in
  match err with
  | Some e => Ret ([], Some (ErrWrap e "docker images"))
  | None =>
      let images := strings.Split (Stdout rr) LF in
      Ret (listImagesRows images [])
  end.

Definition buildArgs (src file tag : string) (opts : list string) : list string :=
  let args := ["build"] in
  let args := if negb (String.eqb file "") then args ++ ["-f"; file] else args in
  let args := if negb (String.eqb tag "") then args ++ ["-t"; tag] else args in
  let args := args ++ [src] in
  fold_left (fun args opt => args ++ ["--" +:+ opt]) opts args.

Definition BuildImage (r : Docker) (src file tag : string) (push : bool)
  (env opts : list string) : Prog error :=
  let c := exec.Command "docker" (buildArgs src file tag opts) in
  let e := os_Environ ++ env in
  let c := {| Path := Path c; Args := Args c; CmdEnv := e; Attached := true |} in
  x <- call (RunCmd c) ;;
  match snd x with
  | Some e => Ret (Some (ErrWrap e "buildimage docker"))
  | None =>
      if negb (String.eqb tag "") && push then
        let c := exec.Command "docker" ["push"; tag] in
        let c := {| Path := Path c; Args := Args c; CmdEnv := CmdEnv c; Attached := true |} in
        x <- call (RunCmd c) ;;
        match snd x with
        | Some e => Ret (Some (ErrWrap e "pushimage docker"))
        | None => Ret None
        end
      else Ret None
  end.

(** The second loop of [dockerImagesPreloaded]: every expected image,
    trimmed, must be a key of [preloadedImages]. *)
Fixpoint allPreloaded (preloadedImages : gset string) (images : list string) : bool :=
  match images with
  | [] => true
  | i :: rest =>
      let i := TrimDockerIO i in
      if bool_decide (i ∈ preloadedImages) then allPreloaded preloadedImages rest
      else false
  end.

Definition dockerImagesCmd : Cmd :=
  exec.Command "docker" ["images"; "--format"; "{{.Repository}}:{{.Tag}}"].

(** The first loop of [dockerImagesPreloaded]: the set of the output
    lines, each trimmed. *)
Definition collectPreloaded (lines : list string) : gset string :=
  fold_left (fun m i => {[ TrimDockerIO i ]} ∪ m) lines ∅.

Definition dockerImagesPreloaded (images : list string) : Prog bool :=
  x <- call (RunCmd dockerImagesCmd) ;;
  let '(rr, err) := x in
  match err with
  | Some _ => Ret false
  | None =>
      let preloadedImages := collectPreloaded (strings.Split (Stdout rr) LF) in
      Ret (allPreloaded preloadedImages images)
  end.

Definition ImagesPreloaded (r : Docker) (images : list string) : Prog bool :=
  dockerImagesPreloaded images.

(** What [dockerImagesPreloaded] decides from the runner's answer. *)
Definition imagesPreloadedIn (answer : RunResult * error) (images : list string)
  : bool :=
  match snd answer with
  | Some _ => false
  | None =>
      allPreloaded (collectPreloaded (strings.Split (Stdout (fst answer)) LF)) images
  end.


Definition preloadDest : string := "/preloaded.tar.lz4".

Definition whichLz4 : Cmd := exec.Command "which" ["lz4"].

Definition extractCmd (dest : string) : Cmd :=
  exec.Command "sudo" ["tar"; "-I"; "lz4"; "-C"; "/var"; "-xf"; dest].

(** [Preload].  The calls to the reference store ([refStore.Save],
    [refStore.Update]) and to [Remove] only log their failures.  The
    deferred [fa.Close] runs when the function returns, after the file
    asset was made. *)
Definition Preload (r : Docker) (cc : config.ClusterConfig) : Prog error :=
  let kc := config.KubernetesConfig_ cc in
  ex <- call (PreloadExists (config.KubernetesVersion kc)
                (config.ContainerRuntime kc) (config.Driver cc)) ;;
  if negb ex then Ret None
  else
    let k8sVersion := config.KubernetesVersion kc in
    let cRuntime := config.ContainerRuntime kc in
    x <- call (Kubeadm (config.ImageRepository kc) k8sVersion) ;;
    let '(images, err) := x in
    match err with
    | Some e => Ret (Some (ErrWrap e "getting images"))
    | None =>
        preloaded <- dockerImagesPreloaded images ;;
        if (preloaded : bool) then Ret None
        else
          _ <- call StorageSave ;;
          let tarballPath := TarballPath k8sVersion cRuntime in
          let targetDir := "/" in
          let targetName := "preloaded.tar.lz4" in
          let dest := path.Join [targetDir; targetName] in
          x <- call (RunCmd whichLz4) ;;
          match snd x with
          | Some _ => Ret (Some (NewErrISOFeature "lz4"))
          | None =>
              err <- call (NewFileAsset tarballPath targetDir targetName "0644") ;;
              match err with
              | Some e => Ret (Some (ErrWrap e "getting file asset"))
              | None =>
                  let fa := FileAsset tarballPath targetDir targetName "0644" in
                  res <-
                    (err <- call (Copy fa) ;;
                     match err with
                     | Some e => Ret (Some (ErrWrap e "copying file"))
                     | None =>
                         x <- call (RunCmd (extractCmd dest)) ;;
                         let '(rr, err) := x in
                         match err with
                         | Some e =>
                             Ret (Some (ErrWrap e ("extracting tarball: " +:+ Output rr)))
                         | None =>
                             _ <- call (Remove fa) ;;
                             _ <- call StorageSave ;;
                             _ <- call StorageUpdate ;;
                             Restart r
                         end
                     end) ;;
                  _ <- call (AssetClose fa) ;;
                  Ret res
              end
          end
    end.

Definition cniArguments (networkPlugin : string) : string :=
  let args := "" in
  if String.eqb networkPlugin "cni" then
    let args := args +:+ (" --cni-bin-dir=" +:+ CNIBinDir) in
    let args := args +:+ (" --cni-cache-dir=" +:+ CNICacheDir) in
    let args := args +:+ (" --cni-conf-dir=" +:+ ConfDir) in
    let args := args +:+ " --hairpin-mode=promiscuous-bridge" in
    args
  else args.

(** [dockerConfigureNetworkPlugin r cr networkPlugin]; the runner [cr] is
    the environment.  Executing the template is a call that may fail; when
    it does not, the buffer holds the template's text for [opts]. *)
Definition dockerConfigureNetworkPlugin (r : Docker) (networkPlugin : string)
  : Prog error :=
  if String.eqb networkPlugin "" then Ret None
  else
    let args := cniArguments networkPlugin in
    let opts := {| NetworkPlugin := networkPlugin; ExtraArguments := args |} in
    err <- call (TemplateExecute "criDockerServiceConfTemplate" opts) ;;
    match err with
    | Some e => Ret (Some (ErrWrap e "failed to execute template"))
    | None =>
        let criDockerService := CRIDockerServiceConfTemplate opts in
        let c := exec.Command "sudo" ["mkdir"; "-p"; path.Dir CRIDockerServiceConfFile] in
        x <- call (RunCmd c) ;;
        match snd x with
        | Some e => Ret (Some (ErrWrap e "failed to create directory"))
        | None =>
            let svc := NewMemoryAssetTarget criDockerService CRIDockerServiceConfFile "0644" in
            err <- call (Copy svc) ;;
            match err with
            | Some e => Ret (Some (ErrWrap e "failed to copy template"))
            | None => call (Init sysinit.Restart "cri-docker")
            end
        end
    end.

(** The calls of the configurator for the plugin ["cni"]: its template
    data, the directory it creates and the file it copies. *)
Definition cniOpts : TemplateOpts :=
  {| NetworkPlugin := "cni"; ExtraArguments := cniArguments "cni" |}.

Definition cniOverride : Asset :=
  NewMemoryAssetTarget (CRIDockerServiceConfTemplate cniOpts)
    CRIDockerServiceConfFile "0644".

Definition mkdirOverrideDir : Cmd :=
  exec.Command "sudo" ["mkdir"; "-p"; "/etc/systemd/system/cri-docker.service.d"].

End Adapter.

(** ** The vocabulary of the design document *)

(** The first call of a program, if it makes one. *)
Definition first_call {A : Type} (p : Prog A) : option Call :=
  match p with
  | Ret _ => None
  | Vis c _ => Some c
  end.

(** A program hands its work to the CRI backend when it is one call into
    the backend whose answer it returns. *)
Definition delegates {A : Type} (p : Prog A) : Prop :=
  exists (c : Call) (k : Resp c -> A),
    is_cri c = true /\ p = Vis c (fun x => Ret (k x)).

(** A command that runs the docker client, directly or through a shell
    pipeline. *)
Definition runs_docker (c : Cmd) : bool :=
  String.eqb (Path c) "docker"
  || (String.eqb (Path c) "/bin/bash"
      && existsb (fun a => strings.Contains a "docker ") (Args c)).

(** Every call of the trace is a command to the docker client. *)
Definition native_only (t : list Interaction) : Prop :=
  Forall (fun c => match c with
                   | RunCmd cmd => runs_docker cmd = true
                   | _ => False
                   end) (calls t).


(** Modelled from the spec: [image.TrimDockerIO] (package [image] is not
    part of the sources at hand), "stripping an implicit default-registry
    prefix": the default registry [docker.io/] is cut off the front of the
    name.  The [library] segment, which the design document describes apart
    from the registry prefix, is left in place. *)
Definition TrimDockerIO_spec (name : string) : string :=
  strings.TrimPrefix name "docker.io/".

(** How a step of a service sequence treats its failure. *)
Inductive Fatality : Set := Fatal | LogOnly.

Definition Step : Type := (sysinit.Action * string * Fatality)%type.

Definition step_call (s : Step) : Call := Init (fst (fst s)) (snd (fst s)).

(** The steps of [Disable], as the design document lists them. *)
Definition DisableSteps (r : Docker) : list Step :=
  (if String.eqb (CRIService r) "" then []
   else [(sysinit.Stop, CRIService r, Fatal);
         (sysinit.Disable, CRIService r, Fatal)])
  ++ [(sysinit.ForceStop, "docker.socket", LogOnly);
      (sysinit.ForceStop, "docker.service", Fatal);
      (sysinit.Disable, "docker.socket", LogOnly);
      (sysinit.Mask, "docker.service", Fatal)].

(** [follows steps t res]: the trace [t] takes the steps in order; a step
    that succeeds, or fails and is only logged, is followed by the next one;
    a fatal step that fails ends the trace and its error is the result; when
    no step is left the result is success. *)
Inductive follows : list Step -> list Interaction -> error -> Prop :=
| follows_done : follows [] [] None
| follows_ok a svc f rest t res :
    follows rest t res ->
    follows ((a, svc, f) :: rest) ((Init a svc ↦ None) :: t) res
| follows_logged a svc e rest t res :
    follows rest t res ->
    follows ((a, svc, LogOnly) :: rest) ((Init a svc ↦ Some e) :: t) res
| follows_fatal a svc e rest :
    follows ((a, svc, Fatal) :: rest) [Init a svc ↦ Some e] (Some e).

(** ** Worked inputs *)

Definition someErr : Err := ErrNew "exit status 1".

Definition noOptions : ListImagesOptions := Build_ListImagesOptions.

Definition noOutput : RunResult := {| Stdout := ""; Stderr := "" |}.

Definition v1_25_0 : semver.Version :=
  {| semver.Major := 1; semver.Minor := 25; semver.Patch := 0;
     semver.Pre := []; semver.Build := [] |}.

Definition v1_23_9 : semver.Version :=
  {| semver.Major := 1; semver.Minor := 23; semver.Patch := 9;
     semver.Pre := []; semver.Build := [] |}.

(** A runtime fronted by the CRI shim, its socket left unset. *)
Definition criDocker : Docker :=
  {| Socket := ""; ImageRepository := ""; KubernetesVersion := v1_25_0;
     UseCRI := true; CRIService := "cri-docker.socket" |}.

(** A runtime on the native path. *)
Definition nativeDocker : Docker :=
  {| Socket := ""; ImageRepository := ""; KubernetesVersion := v1_23_9;
     UseCRI := false; CRIService := "" |}.

Definition exampleConfig : config.ClusterConfig :=
  {| config.Driver := "docker";
     config.KubernetesConfig_ :=
       {| config.KubernetesVersion := "v1.25.0";
          config.ContainerRuntime := "docker";
          config.ImageRepository := "" |} |}.

(** Pure collaborators for the worked inputs, with the design document's
    reading of [TrimDockerIO]. *)
Definition exampleExternals : Externals :=
  {| TrimDockerIO := TrimDockerIO_spec;
     TarballPath := fun k8sVersion cRuntime =>
       "/cache/preloaded-images-k8s-" +:+ k8sVersion +:+ "-" +:+ cRuntime +:+ ".tar.lz4";
     ConfDir := CNIConfDir;
     Output := fun rr => Stdout rr +:+ Stderr rr;
     json_Unmarshal := fun _ =>
       ({| jsonID := ""; jsonRepository := ""; jsonTag := ""; jsonSize := "" |},
        Some (ErrNew "unexpected end of JSON input"));
     FromHumanSize := fun _ => (0%Z, Some (ErrNew "invalid size"));
     os_Environ := [] |}.

(** The answer of a host on which every call succeeds, with empty output. *)
Definition succeed (c : Call) : Resp c :=
  match c as c0 return Resp c0 with
  | RunCmd _ => (noOutput, None)
  | Copy _ | Remove _ => None
  | Init _ _ => None
  | InitActive _ => true
  | LookPath _ => None
  | pullCRIImage _ | removeCRIImage _ => None
  | listCRIContainers _ _ => ([], None)
  | killCRIContainers _ | stopCRIContainers _ => None
  | pauseCRIContainers _ _ | unpauseCRIContainers _ _ => None
  | criContainerLogCmd _ _ _ => ""
  | PreloadExists _ _ _ => true
  | Kubeadm _ _ => ([], None)
  | StorageSave | StorageUpdate => None
  | NewFileAsset _ _ _ _ => None
  | AssetClose _ => None
  | TemplateExecute _ _ => None
  end.

Definition healthyHost : Env unit := fun c w => (succeed c, w).

(** A host on which the executable [file] is not on PATH, and everything
    else succeeds. *)
Definition pathWithout (file : string) (c : Call) : Resp c :=
  match c as c0 return Resp c0 with
  | LookPath f =>
      if String.eqb f file then Some (ErrNew "executable file not found in $PATH")
      else None
  | c0 => succeed c0
  end.

Definition hostWithout (file : string) : Env unit :=
  fun c w => (pathWithout file c, w).

(** A host on which stopping [docker.socket] fails, and everything else
    succeeds. *)
Definition stuckSocket (c : Call) : Resp c :=
  match c as c0 return Resp c0 with
  | Init a svc =>
      match a with
      | sysinit.ForceStop =>
          if String.eqb svc "docker.socket" then Some someErr else None
      | _ => None
      end
  | c0 => succeed c0
  end.

Definition hostStuckSocket : Env unit := fun c w => (stuckSocket c, w).





(** [answers env w t]: started in state [w], the host [env] answers the
    calls of the script [t], one after the other, as [t] records. *)
Fixpoint answers {W : Type} (env : Env W) (w : W) (t : list Interaction) : Prop :=
  match t with
  | [] => True
  | i :: rest =>
      exists w1, env (projT1 i) w = (projT2 i, w1) /\ answers env w1 rest
  end.

(** No call of the trace reported an error. *)
Definition no_failure (t : list Interaction) : Prop :=
  Forall (fun i => failure i = None) t.

(** The images of the design document's preload example. *)
Definition expectedAB : list string := ["A"; "B"].


(** The same images, listed under the default registry alone. *)
Definition presentDockerIO : RunResult :=
  {| Stdout := "docker.io/A" +:+ LF +:+ "docker.io/B" +:+ LF +:+ "C" +:+ LF;
     Stderr := "" |}.

Definition presentA : RunResult :=
  {| Stdout := "A" +:+ LF; Stderr := "" |}.

(** A host with a preload bundle, on which [images.Kubeadm] expects
    [images], [docker images] prints [present], and [lz4] is installed or
    not; everything else succeeds. *)
Definition preloadAnswers (images : list string) (present : RunResult) (lz4 : bool)
    (c : Call) : Resp c :=
  match c as c0 return Resp c0 with
  | RunCmd cmd =>
      if bool_decide (cmd = dockerImagesCmd) then (present, None)
      else if bool_decide (cmd = whichLz4) then
        (if lz4 then (noOutput, None) else (noOutput, Some someErr))
      else (noOutput, None)
  | Kubeadm _ _ => (images, None)
  | c0 => succeed c0
  end.

Definition preloadHost (images : list string) (present : RunResult) (lz4 : bool)
  : Env unit :=
  fun c w => (preloadAnswers images present lz4 c, w).

(** ** The rest of the adapter *)

(** The double quote and the tab of the daemon configuration. *)
Definition DQ : string := String (ascii_of_nat 34) EmptyString.
Definition TAB : string := String (ascii_of_nat 9) EmptyString.

Definition quoted (s : string) : string := DQ +:+ s +:+ DQ.

(** The text that [forceSystemd] writes to [/etc/docker/daemon.json]. *)
Definition daemonConfig : string :=
  "{" +:+ LF +:+
  quoted "exec-opts" +:+ ": [" +:+ quoted "native.cgroupdriver=systemd" +:+ "]," +:+ LF +:+
  quoted "log-driver" +:+ ": " +:+ quoted "json-file" +:+ "," +:+ LF +:+
  quoted "log-opts" +:+ ": {" +:+ LF +:+
  TAB +:+ quoted "max-size" +:+ ": " +:+ quoted "100m" +:+ LF +:+
  "}," +:+ LF +:+
  quoted "storage-driver" +:+ ": " +:+ quoted "overlay2" +:+ LF +:+
  "}" +:+ LF.

Definition daemonAsset : Asset :=
  NewMemoryAsset daemonConfig "/etc/docker" "daemon.json" "0644".

Definition forceSystemd (r : Docker) : Prog error :=
  let ma := daemonAsset in
  call (Copy ma).

(** The functions of this package that [Enable] calls and whose file is not
    part of the sources at hand; each is handed the adapter's [Runner], so
    each is a program over the same calls. *)
Record PackageHelpers := {
  disableOthers : Docker -> Prog error;
  populateCRIConfig : string -> Prog error
}.

(** [Enable]; the flag [forceSystemd] of the source is [forceSystemd_] here,
    its name being taken by the method.  A failure of [disableOthers] and a
    failure to enable [docker.socket] are only logged. *)
Definition Enable (P : PackageHelpers) (r : Docker)
    (disOthers forceSystemd_ inUserNamespace : bool) : Prog error :=
  if inUserNamespace then
    Ret (Some (ErrNew "inUserNamespace must not be true for docker"))
  else
    let restart :=
      err <- call (Init sysinit.Restart "docker") ;;
      match err with
      | Some e => Ret (Some e)
      | None =>
          if negb (String.eqb (CRIService r) "") then
            err <- call (Init sysinit.Enable (CRIService r)) ;;
            match err with
            | Some e => Ret (Some e)
            | None =>
                err <- call (Init sysinit.Start (CRIService r)) ;;
                match err with
                | Some e => Ret (Some e)
                | None => Ret None
                end
            end
          else Ret None
      end in
    let configure :=
      err <- populateCRIConfig P (SocketPath r) ;;
      match err with
      | Some e => Ret (Some e)
      | None =>
          err <- call (Init sysinit.Unmask "docker.service") ;;
          match err with
          | Some e => Ret (Some e)
          | None =>
              _ <- call (Init sysinit.Enable "docker.socket") ;;
              if forceSystemd_ then
                err <- forceSystemd r ;;
                match err with
                | Some e => Ret (Some e)
                | None => restart
                end
              else restart
          end
      end in
    if disOthers then _ <- disableOthers P r ;; configure
    else configure.

Section Inspection.

Context `{Externals}.

Definition imageInspectCmd (name : string) : Cmd :=
  exec.Command "docker" ["image"; "inspect"; "--format"; "{{.Id}}"; name].

Definition ImageExists (r : Docker) (name sha : string) : Prog bool :=
  let c := imageInspectCmd name in
  x <- call (RunCmd c) ;;
  let '(rr, err) := x in
  match err with
  | Some _ => Ret false
  | None =>
      if negb (String.eqb sha "") && negb (strings.Contains (Output rr) sha)
      then Ret false
      else Ret true
  end.

End Inspection.

Definition systemctlCatDocker : Cmd :=
  exec.Command "sudo" ["systemctl"; "cat"; "docker.service"].

Definition dockerBoundToContainerd : Prog bool :=
  x <- call (RunCmd systemctlCatDocker) ;;
  let '(rr, err) := x in
  match err with
  | Some _ => Ret false
  | None =>
      if strings.Contains (Stdout rr) (LF +:+ "BindsTo=containerd") then Ret true
      else Ret false
  end.

(** ** More vocabulary *)

(** The text of [s] before the first occurrence of the character [c]. *)
Fixpoint before (c : ascii) (s : string) : string :=
  match s with
  | EmptyString => EmptyString
  | String a s' => if Ascii.eqb a c then EmptyString else String a (before c s')
  end.

(** The character [c] occurs in [s]. *)
Fixpoint occurs (c : ascii) (s : string) : bool :=
  match s with
  | EmptyString => false
  | String a s' => Ascii.eqb a c || occurs c s'
  end.

Definition LFchar : ascii := ascii_of_nat 10.

(** What a step of a host sequence does: a service action or a file copy. *)
Inductive Effect : Type :=
| SvcAction (a : sysinit.Action) (svc : string)
| CopyAsset (a : Asset).

Definition effect_call (e : Effect) : Call :=
  match e with
  | SvcAction a svc => Init a svc
  | CopyAsset a => Copy a
  end.

Definition effect_answered (e : Effect) (x : error) : Interaction :=
  match e with
  | SvcAction a svc => Init a svc ↦ x
  | CopyAsset a => Copy a ↦ x
  end.

(** [proceeds steps t res]: like [follows], for steps that are service
    actions or file copies. *)
Inductive proceeds : list (Effect * Fatality) -> list Interaction -> error -> Prop :=
| proceeds_done : proceeds [] [] None
| proceeds_ok e f rest t res :
    proceeds rest t res ->
    proceeds ((e, f) :: rest) (effect_answered e None :: t) res
| proceeds_logged e err rest t res :
    proceeds rest t res ->
    proceeds ((e, LogOnly) :: rest) (effect_answered e (Some err) :: t) res
| proceeds_fatal e err rest :
    proceeds ((e, Fatal) :: rest) [effect_answered e (Some err)] (Some err).

(** The steps of [Enable] on the host, after the CRI configuration was
    written, read off its body. *)
Definition EnableSteps (r : Docker) (forceSystemd_ : bool) : list (Effect * Fatality) :=
  [(SvcAction sysinit.Unmask "docker.service", Fatal);
   (SvcAction sysinit.Enable "docker.socket", LogOnly)]
  ++ (if forceSystemd_ then [(CopyAsset daemonAsset, Fatal)] else [])
  ++ [(SvcAction sysinit.Restart "docker", Fatal)]
  ++ (if String.eqb (CRIService r) "" then []
      else [(SvcAction sysinit.Enable (CRIService r), Fatal);
            (SvcAction sysinit.Start (CRIService r), Fatal)]).

(** The calls of [Preload] whose failure is only logged. *)
Definition best_effort (c : Call) : bool :=
  match c with
  | StorageSave | StorageUpdate | Remove _ | AssetClose _ => true
  | _ => false
  end.

(** Two interactions agree when they are the same call, with the same
    answer unless the call is a best-effort one. *)
Definition agree (i j : Interaction) : Prop :=
  projT1 i = projT1 j /\ (best_effort (projT1 i) = false -> i = j).

(** An image record as [ListImages] builds it: no digest, one tag, and that
    tag registry-qualified. *)
Definition listed (img : ListImage) : Prop :=
  RepoDigests img = [] /\
  exists tag, RepoTags img = [tag] /\ addDockerIO tag = tag.

Section Rows.

Context `{Externals}.

(** A line of the image listing decodes: both the row and its size. *)
Definition decodes (line : string) : Prop :=
  snd (json_Unmarshal line) = None /\
  snd (FromHumanSize (jsonSize (fst (json_Unmarshal line)))) = None.

(** The calls of [Preload] for a cluster configuration. *)
Definition bundleLookup (cc : config.ClusterConfig) : Call :=
  PreloadExists (config.KubernetesVersion (config.KubernetesConfig_ cc))
    (config.ContainerRuntime (config.KubernetesConfig_ cc))
    (config.Driver cc).

Definition imageList (cc : config.ClusterConfig) : Call :=
  Kubeadm (config.ImageRepository (config.KubernetesConfig_ cc))
    (config.KubernetesVersion (config.KubernetesConfig_ cc)).

Definition tarballSource (cc : config.ClusterConfig) : string :=
  TarballPath (config.KubernetesVersion (config.KubernetesConfig_ cc))
    (config.ContainerRuntime (config.KubernetesConfig_ cc)).

Definition openTarball (cc : config.ClusterConfig) : Call :=
  NewFileAsset (tarballSource cc) "/" "preloaded.tar.lz4" "0644".

Definition tarball (cc : config.ClusterConfig) : Asset :=
  FileAsset (tarballSource cc) "/" "preloaded.tar.lz4" "0644".

End Rows.

(** ** More worked inputs *)

(** A host that answers the commands by [f] and succeeds in all else. *)
Definition runAnswers (f : Cmd -> RunResult * error) (c : Call) : Resp c :=
  match c as c0 return Resp c0 with
  | RunCmd cmd => f cmd
  | c0 => succeed c0
  end.

Definition hostRunning (f : Cmd -> RunResult * error) : Env unit :=
  fun c w => (runAnswers f c, w).

(** Every command prints [out]. *)
Definition printing (out : string) (cmd : Cmd) : RunResult * error :=
  ({| Stdout := out; Stderr := "" |}, None).

(** Every command fails. *)
Definition failing (cmd : Cmd) : RunResult * error := (noOutput, Some someErr).

(** A host with no preload bundle. *)
Definition noBundle (c : Call) : Resp c :=
  match c as c0 return Resp c0 with
  | PreloadExists _ _ _ => false
  | c0 => succeed c0
  end.

Definition hostNoBundle : Env unit := fun c w => (noBundle c, w).

(** The preload host of [preloadAnswers] with [lz4] installed, on which the
    reference store cannot be saved or updated and the tarball cannot be
    removed. *)
Definition flakyAnswers (images : list string) (present : RunResult)
    (c : Call) : Resp c :=
  match c as c0 return Resp c0 with
  | StorageSave => Some someErr
  | StorageUpdate => Some someErr
  | Remove _ => Some someErr
  | c0 => preloadAnswers images present true c0
  end.

Definition flakyHost (images : list string) (present : RunResult) : Env unit :=
  fun c w => (flakyAnswers images present c, w).

(** A preload host on which the extraction fails. *)
Definition brokenTarAnswers (images : list string) (present : RunResult)
    (c : Call) : Resp c :=
  match c as c0 return Resp c0 with
  | RunCmd cmd =>
      if bool_decide (cmd = extractCmd preloadDest)
      then ({| Stdout := ""; Stderr := "tar: short read" |}, Some someErr)
      else preloadAnswers images present true (RunCmd cmd)
  | c0 => preloadAnswers images present true c0
  end.

Definition brokenTarHost (images : list string) (present : RunResult) : Env unit :=
  fun c w => (brokenTarAnswers images present c, w).

(** Package helpers for the worked inputs. *)
Definition examplePackage : PackageHelpers :=
  {| disableOthers := fun _ => call (Init sysinit.Stop "containerd");
     populateCRIConfig := fun socket =>
       call (Copy (NewMemoryAsset ("runtime-endpoint: unix://" +:+ socket)
                     "/etc" "crictl.yaml" "0644")) |}.

(** Decoders for the worked inputs: one known row, everything else is
    malformed. *)
Definition exampleRow : string := "{nginx 1.21}".

Definition rowExternals : Externals :=
  {| TrimDockerIO := TrimDockerIO_spec;
     TarballPath := fun k8sVersion cRuntime => "/cache/" +:+ k8sVersion +:+ cRuntime;
     ConfDir := CNIConfDir;
     Output := fun rr => Stdout rr +:+ Stderr rr;
     json_Unmarshal := fun line =>
       if String.eqb line exampleRow then
         ({| jsonID := "sha256:0a1b"; jsonRepository := "nginx"; jsonTag := "1.21";
             jsonSize := "142MB" |}, None)
       else
         ({| jsonID := ""; jsonRepository := ""; jsonTag := ""; jsonSize := "" |},
          Some (ErrNew "invalid character"));
     FromHumanSize := fun size =>
       if String.eqb size "142MB" then (142000000%Z, None)
       else (0%Z, Some (ErrNew "invalid size"));
     os_Environ := ["HOME=/root"] |}.

(** * Properties *)

(** ** Executions *)

Lemma exec_inv {A : Type} (p : Prog A) t res :
  exec p t res ->
  match p with
  | Ret a => t = [] /\ res = a
  | Vis c k => exists x t', t = (c ↦ x) :: t' /\ exec (k x) t' res
  end.
Proof. destruct 1; eauto. Qed.

Lemma exec_Ret_inv {A : Type} (a : A) t res :
  exec (Ret a) t res -> t = [] /\ res = a.
Proof. apply (exec_inv (Ret a)). Qed.

Lemma exec_Vis_inv {A : Type} c (k : Resp c -> Prog A) t res :
  exec (Vis c k) t res ->
  exists x t', t = (c ↦ x) :: t' /\ exec (k x) t' res.
Proof. apply (exec_inv (Vis c k)). Qed.

(** Whatever the environment, a run is an execution. *)
Lemma run_exec {W A : Type} (env : Env W) (p : Prog A) :
  forall w, exec p (trace (run env p w)) (result (run env p w)).
Proof.
  induction p as [a | c k IH]; intros w; simpl.
  - constructor.
  - destruct (env c w) as [x w1].
    specialize (IH x w1).
    destruct (run env (k x) w1) as [[a t] w2].
    constructor. exact IH.
Qed.

(** A run takes the answer of its host and goes on from there. *)
Lemma run_Vis {W A : Type} (env : Env W) c (k : Resp c -> Prog A) w x w1 :
  env c w = (x, w1) ->
  trace (run env (Vis c k) w) = (c ↦ x) :: trace (run env (k x) w1) /\
  result (run env (Vis c k) w) = result (run env (k x) w1).
Proof.
  intros E. simpl. rewrite E.
  destruct (run env (k x) w1) as [[a t] w2]. split; reflexivity.
Qed.

(** The host decides the run: an execution whose script the host answers
    is the run on that host. *)
Lemma exec_run {W A : Type} (env : Env W) (p : Prog A) t res :
  exec p t res ->
  forall w, answers env w t ->
    trace (run env p w) = t /\ result (run env p w) = res.
Proof.
  induction 1 as [a | c k x t a _ IH]; intros w Ha.
  - split; reflexivity.
  - destruct Ha as (w1 & E & Ha). cbn [projT1 projT2 answered] in E.
    destruct (run_Vis env c k w x w1 E) as [-> ->].
    destruct (IH w1 Ha) as [-> ->]. split; reflexivity.
Qed.


Lemma exec_bind_inv {A B : Type} (p : Prog A) (f : A -> Prog B) t b :
  exec (bind p f) t b ->
  exists t1 a t2, exec p t1 a /\ exec (f a) t2 b /\ t = t1 ++ t2.
Proof.
  revert t. induction p as [a | c k IH]; intros t Hx; simpl in Hx.
  - exists [], a, t. repeat split; [constructor | exact Hx].
  - apply exec_Vis_inv in Hx as (x & t' & -> & Hx).
    apply IH in Hx as (t1 & a & t2 & H1 & H2 & ->).
    exists ((c ↦ x) :: t1), a, t2. repeat split; [constructor; exact H1 | exact H2].
Qed.

(** Two answers to the same call that make the same interaction are equal. *)
Lemma answered_inj (c : Call) (x y : Resp c) : (c ↦ x) = (c ↦ y) -> x = y.
Proof.
  unfold answered.
  apply (Eqdep_dec.inj_pair2_eq_dec Call (fun a b => decide (a = b))).
Qed.

Lemma answered_call (c d : Call) (x : Resp c) (y : Resp d) :
  (c ↦ x) = (d ↦ y) -> c = d.
Proof. intros E. exact (f_equal (@projT1 _ _) E). Qed.

(** Symbolic execution of a hypothesis [H : exec p t res]: one call, one
    case analysis or one return at a time. *)
Ltac exec_step H :=
  unfold call in H; cbn [bind link implement] in H;
  lazymatch type of H with
  | exec (Ret _) _ _ =>
      apply exec_Ret_inv in H; destruct H as [? ?]; subst
  | exec (Vis _ _) _ _ =>
      let x := fresh "x" in
      let t := fresh "t" in
      apply exec_Vis_inv in H; destruct H as (x & t & ? & H); subst;
      cbn [Resp] in x
  | exec (match ?e with _ => _ end) _ _ =>
      let E := fresh "E" in destruct e eqn:E; cbn [fst snd] in *
  | exec (link _ (match ?e with _ => _ end)) _ _ =>
      let E := fresh "E" in destruct e eqn:E; cbn [fst snd] in *
  | exec (bind (match ?e with _ => _ end) _) _ _ =>
      let E := fresh "E" in destruct e eqn:E; cbn [fst snd] in *
  end.

Ltac exec_all H := repeat exec_step H.

(** ** Registry-prefix normalisation *)

Lemma prefix_slash (c : ascii) (s : string) :
  String.prefix "/" (String c s) = Ascii.eqb c "/".
Proof.
  change (String.prefix "/" (String c s))
    with (if ascii_dec "/" c then String.prefix "" s else false).
  destruct (ascii_dec "/" c) as [<- | Hne].
  - rewrite Ascii.eqb_refl. destruct s; reflexivity.
  - symmetry. apply Ascii.eqb_neq. congruence.
Qed.

(** Cutting at the first slash: the two pieces around it, or nothing when
    the name has no slash. *)
Lemma Cut_slash (s : string) :
  match strings.Cut s "/" with
  | Some (a, b) => s = a +:+ "/" +:+ b /\ a = first_segment s /\ has_slash s = true
  | None => has_slash s = false
  end.
Proof.
  induction s as [| c s IH].
  - reflexivity.
  - unfold has_slash in *.
    cbn [strings.Cut strings.Contains first_segment].
    rewrite prefix_slash.
    destruct (Ascii.eqb c "/") eqn:Ec.
    + apply Ascii.eqb_eq in Ec as ->. simpl. auto.
    + destruct (strings.Cut s "/") as [[a b] |].
      * destruct IH as (Hs & Ha & Hh). rewrite Hh.
        split; [| split]; [| congruence | reflexivity].
        rewrite Hs at 1. reflexivity.
      * exact IH.
Qed.

Lemma SplitN_slash_2 (s : string) :
  strings.SplitN s "/" 2 =
  match strings.Cut s "/" with
  | Some (a, b) => [a; b]
  | None => [s]
  end.
Proof.
  unfold strings.SplitN. simpl.
  destruct (strings.Cut s "/") as [[a b] |]; reflexivity.
Qed.

Lemma addDockerIO_qualified (name : string) :
  has_slash name = true -> has_dot (first_segment name) = true ->
  addDockerIO name = name.
Proof.
  intros Hs Hd. unfold addDockerIO. rewrite SplitN_slash_2.
  pose proof (Cut_slash name) as HC.
  destruct (strings.Cut name "/") as [[a b] |].
  - destruct HC as (Hn & Ha & _). subst a.
    unfold has_dot in Hd. simpl. rewrite Hd. simpl. symmetry. exact Hn.
  - congruence.
Qed.

Lemma addDockerIO_user (name : string) :
  has_slash name = true -> has_dot (first_segment name) = false ->
  addDockerIO name = "docker.io/" +:+ name.
Proof.
  intros Hs Hd. unfold addDockerIO. rewrite SplitN_slash_2.
  pose proof (Cut_slash name) as HC.
  destruct (strings.Cut name "/") as [[a b] |].
  - destruct HC as (Hn & Ha & _). subst a.
    unfold has_dot in Hd. simpl. rewrite Hd. simpl.
    rewrite <- Hn. reflexivity.
  - congruence.
Qed.

Lemma addDockerIO_bare (name : string) :
  has_slash name = false ->
  addDockerIO name = "docker.io/library/" +:+ name.
Proof.
  intros Hs. unfold addDockerIO. rewrite SplitN_slash_2.
  pose proof (Cut_slash name) as HC.
  destruct (strings.Cut name "/") as [[a b] |].
  - destruct HC as (_ & _ & HC). congruence.
  - reflexivity.
Qed.

Lemma append_nil_l (s : string) : "" +:+ s = s.
Proof. reflexivity. Qed.

Lemma append_cons (c : ascii) (a s : string) :
  String c a +:+ s = String c (a +:+ s).
Proof. reflexivity. Qed.

Lemma has_slash_app (a b : string) : has_slash (a +:+ "/" +:+ b) = true.
Proof.
  unfold has_slash. induction a as [| c a IH].
  - rewrite append_nil_l, append_cons.
    cbn [strings.Contains]. rewrite prefix_slash. reflexivity.
  - rewrite append_cons.
    cbn [strings.Contains]. rewrite prefix_slash, IH.
    destruct (Ascii.eqb c "/"); reflexivity.
Qed.

Lemma first_segment_app (a b : string) :
  has_slash a = false -> first_segment (a +:+ "/" +:+ b) = a.
Proof.
  unfold has_slash. induction a as [| c a IH].
  - reflexivity.
  - rewrite append_cons.
    cbn [strings.Contains first_segment]. rewrite prefix_slash.
    destruct (Ascii.eqb c "/"); [discriminate |].
    intros Ha. rewrite (IH Ha). reflexivity.
Qed.

(** A name that already starts with the default registry is qualified. *)
Lemma addDockerIO_default_registry (rest : string) :
  addDockerIO ("docker.io/" +:+ rest) = "docker.io/" +:+ rest.
Proof.
  change ("docker.io/" +:+ rest) with ("docker.io" +:+ "/" +:+ rest).
  apply addDockerIO_qualified.
  - apply has_slash_app.
  - rewrite first_segment_app; reflexivity.
Qed.

Lemma addDockerIO_idempotent (name : string) :
  addDockerIO (addDockerIO name) = addDockerIO name.
Proof.
  destruct (has_slash name) eqn:Hs.
  - destruct (has_dot (first_segment name)) eqn:Hd.
    + rewrite (addDockerIO_qualified name Hs Hd).
      apply addDockerIO_qualified; assumption.
    + rewrite (addDockerIO_user name Hs Hd).
      apply addDockerIO_default_registry.
  - rewrite (addDockerIO_bare name Hs).
    apply (addDockerIO_default_registry ("library/" +:+ name)).
Qed.

(** C2, as the source has it: a name is left unchanged when it has a slash
    and the segment before its first slash contains a dot; a name with a
    slash and no dot in that segment gets ["docker.io/"] in front; a name
    without any slash gets ["docker.io/library/"] in front, dots or not.
    The transform is idempotent, and maps ["nginx"], ["myuser/app"] and
    ["myregistry.io/app"] as the design document says. *)
Theorem addDockerIO_normalizes (name : string) :
  (has_slash name = true -> has_dot (first_segment name) = true ->
   addDockerIO name = name) /\
  (has_slash name = true -> has_dot (first_segment name) = false ->
   addDockerIO name = "docker.io/" +:+ name) /\
  (has_slash name = false ->
   addDockerIO name = "docker.io/library/" +:+ name) /\
  addDockerIO (addDockerIO name) = addDockerIO name /\
  addDockerIO "nginx" = "docker.io/library/nginx" /\
  addDockerIO "myuser/app" = "docker.io/myuser/app" /\
  addDockerIO "myregistry.io/app" = "myregistry.io/app".
Proof.
  split; [apply addDockerIO_qualified |].
  split; [apply addDockerIO_user |].
  split; [apply addDockerIO_bare |].
  split; [apply addDockerIO_idempotent |].
  repeat split.
Qed.

Lemma addDockerIO_normalizes_witness :
  has_slash "myuser/app" = true /\
  has_dot (first_segment "myuser/app") = false /\
  addDockerIO "myuser/app" = "docker.io/" +:+ "myuser/app".
Proof.
  split; [reflexivity |]. split; [reflexivity |].
  apply (proj1 (proj2 (addDockerIO_normalizes "myuser/app"))); reflexivity.
Defined.

(** C2 as worded fails on a name whose only segment contains a dot, such as
    a tagged image without registry or user: the first segment of
    ["nginx:1.21"] contains a dot, and the name is not returned unchanged. *)
Lemma addDockerIO_dotted_bare_name :
  has_dot (first_segment "nginx:1.21") = true /\
  addDockerIO "nginx:1.21" = "docker.io/library/nginx:1.21" /\
  addDockerIO "nginx:1.21" <> "nginx:1.21".
Proof.
  split; [reflexivity |]. split; [reflexivity |]. discriminate.
Qed.

(** ** Kubelet options and the socket path *)

Lemma KubeletOptions_cri_endpoints (r : Docker) :
  UseCRI r = true ->
  KubeletOptions r !! "container-runtime-endpoint" = Some (SocketPath r) /\
  KubeletOptions r !! "image-service-endpoint" = Some (SocketPath r).
Proof.
  unfold KubeletOptions. intros ->. split; by simplify_map_eq.
Qed.

(** C5: in CRI mode [KubeletOptions] has exactly the four CRI keys, both
    endpoints being [SocketPath]; otherwise it has exactly the key
    [container-runtime], bound to [docker]. *)
Theorem KubeletOptions_exact (r : Docker) :
  (UseCRI r = true ->
   dom (KubeletOptions r) =
     ({[ "container-runtime"; "container-runtime-endpoint";
         "image-service-endpoint"; "runtime-request-timeout" ]} : gset string) /\
   KubeletOptions r !! "container-runtime" = Some "remote" /\
   KubeletOptions r !! "container-runtime-endpoint" = Some (SocketPath r) /\
   KubeletOptions r !! "image-service-endpoint" = Some (SocketPath r) /\
   KubeletOptions r !! "runtime-request-timeout" = Some "15m" /\
   size (KubeletOptions r) = 4) /\
  (UseCRI r = false ->
   dom (KubeletOptions r) = ({[ "container-runtime" ]} : gset string) /\
   KubeletOptions r !! "container-runtime" = Some "docker" /\
   size (KubeletOptions r) = 1).
Proof.
  unfold KubeletOptions. split; intros ->.
  - split.
    + rewrite !dom_insert_L, dom_singleton_L. set_solver.
    + repeat split; by simplify_map_eq.
  - split.
    + apply dom_singleton_L.
    + split; [by simplify_map_eq | apply map_size_singleton].
Qed.

Lemma KubeletOptions_exact_witness :
  UseCRI criDocker = true /\
  KubeletOptions criDocker !! "image-service-endpoint" = Some (SocketPath criDocker) /\
  UseCRI nativeDocker = false /\
  dom (KubeletOptions nativeDocker) = ({[ "container-runtime" ]} : gset string).
Proof.
  split; [reflexivity |].
  split; [apply (proj1 (KubeletOptions_exact criDocker)); reflexivity |].
  split; [reflexivity |].
  apply (proj2 (KubeletOptions_exact nativeDocker)); reflexivity.
Defined.

(** C10: with no [Socket] configured, [SocketPath] is the internal
    dockershim socket whatever the mode and the version, so that in CRI mode
    both endpoints of [KubeletOptions] are that socket, which is not the
    external cri-dockerd socket. *)
Theorem SocketPath_default_internal (r : Docker) :
  Socket r = "" ->
  SocketPath r = "/var/run/dockershim.sock" /\
  (UseCRI r = true ->
   KubeletOptions r !! "container-runtime-endpoint" = Some InternalDockerCRISocket /\
   KubeletOptions r !! "image-service-endpoint" = Some InternalDockerCRISocket /\
   KubeletOptions r !! "container-runtime-endpoint" <> Some ExternalDockerCRISocket /\
   KubeletOptions r !! "image-service-endpoint" <> Some ExternalDockerCRISocket).
Proof.
  intros HS.
  assert (HP : SocketPath r = InternalDockerCRISocket).
  { unfold SocketPath. rewrite HS. reflexivity. }
  split; [exact HP |].
  intros HC.
  destruct (KubeletOptions_cri_endpoints r HC) as [H1 H2].
  rewrite H1, H2, HP. repeat split; discriminate.
Qed.

Lemma SocketPath_default_internal_witness :
  Socket criDocker = "" /\
  SocketPath criDocker = "/var/run/dockershim.sock" /\
  UseCRI criDocker = true /\
  KubeletOptions criDocker !! "container-runtime-endpoint" = Some InternalDockerCRISocket.
Proof.
  split; [reflexivity |].
  split; [apply (SocketPath_default_internal criDocker); reflexivity |].
  split; [reflexivity |].
  apply (proj2 (SocketPath_default_internal criDocker eq_refl)); reflexivity.
Defined.

(** ** Availability *)

(** C4: from Kubernetes 1.24 on, [Available] fails with the lookup error
    as soon as [cri-dockerd] does not resolve, whatever the host answers for
    the other binaries (they are not even looked up); below 1.24 the only
    lookup is that of [docker], and its outcome is the result. *)
Theorem Available_requires_shim (r : Docker) :
  (semver.GTE (KubernetesVersion r) v1_24 = true ->
   forall (W : Type) (env : Env W) (w : W) (e : Err),
     fst (env (LookPath "cri-dockerd") w) = Some e ->
     result (run env (Available r) w) = Some e /\
     calls (trace (run env (Available r) w)) = [LookPath "cri-dockerd"]) /\
  (semver.GTE (KubernetesVersion r) v1_24 = false ->
   forall (W : Type) (env : Env W) (w : W),
     result (run env (Available r) w) = fst (env (LookPath "docker") w) /\
     calls (trace (run env (Available r) w)) = [LookPath "docker"]).
Proof.
  unfold Available. split; intros ->.
  - intros W env w e He. simpl.
    destruct (env (LookPath "cri-dockerd") w) as [x w1].
    simpl in He. subst x. split; reflexivity.
  - intros W env w. simpl.
    destruct (env (LookPath "docker") w) as [x w1]. split; reflexivity.
Qed.

Lemma Available_requires_shim_witness :
  semver.GTE (KubernetesVersion criDocker) v1_24 = true /\
  fst (hostWithout "cri-dockerd" (LookPath "cri-dockerd") tt)
    = Some (ErrNew "executable file not found in $PATH") /\
  fst (hostWithout "cri-dockerd" (LookPath "dockerd") tt) = None /\
  fst (hostWithout "cri-dockerd" (LookPath "docker") tt) = None /\
  result (run (hostWithout "cri-dockerd") (Available criDocker) tt)
    = Some (ErrNew "executable file not found in $PATH") /\
  semver.GTE (KubernetesVersion nativeDocker) v1_24 = false /\
  result (run (hostWithout "cri-dockerd") (Available nativeDocker) tt) = None.
Proof.
  split; [reflexivity |]. split; [reflexivity |].
  split; [reflexivity |]. split; [reflexivity |].
  split.
  - apply (proj1 (Available_requires_shim criDocker) eq_refl unit
             (hostWithout "cri-dockerd") tt). reflexivity.
  - split; [reflexivity |].
    apply (proj2 (Available_requires_shim nativeDocker) eq_refl unit
             (hostWithout "cri-dockerd") tt).
Defined.

(** ** Disabling the runtime *)

Lemma follows_prefix steps t res :
  follows steps t res -> calls t `prefix_of` (step_call <$> steps).
Proof.
  induction 1; simpl.
  - apply prefix_nil.
  - apply prefix_cons. assumption.
  - apply prefix_cons. assumption.
  - apply prefix_cons, prefix_nil.
Qed.

(** C7: every execution of [Disable] takes the steps of [DisableSteps] in
    order: stop and disable the CRI service when there is one (both fatal),
    force-stop [docker.socket] (logged), force-stop [docker.service]
    (fatal), disable [docker.socket] (logged), mask [docker.service]; a
    fatal failure is the result and no later step runs. *)
Theorem Disable_order (r : Docker) t res :
  exec (Disable r) t res ->
  follows (DisableSteps r) t res /\
  calls t `prefix_of` (step_call <$> DisableSteps r).
Proof.
  intros Hx.
  assert (HF : follows (DisableSteps r) t res).
  { unfold Disable, DisableSteps in *.
    destruct (String.eqb (CRIService r) ""); cbn [negb app] in *.
    all: exec_all Hx.
    all: repeat match goal with x : option Err |- _ => destruct x end.
    all: repeat constructor. }
  split; [exact HF | apply follows_prefix with res; exact HF].
Qed.

Lemma Disable_order_witness :
  follows (DisableSteps criDocker)
    (trace (run hostStuckSocket (Disable criDocker) tt))
    (result (run hostStuckSocket (Disable criDocker) tt)) /\
  calls (trace (run hostStuckSocket (Disable criDocker) tt))
    `prefix_of` (step_call <$> DisableSteps criDocker).
Proof.
  apply (Disable_order criDocker), run_exec.
Defined.

(** ** The network plugin configurator *)

Lemma prefix_append (sub b : string) : String.prefix sub (sub +:+ b) = true.
Proof.
  induction sub as [| c sub IH].
  - destruct b; reflexivity.
  - rewrite append_cons.
    change (String.prefix (String c sub) (String c (sub +:+ b)))
      with (if ascii_dec c c then String.prefix sub (sub +:+ b) else false).
    destruct (ascii_dec c c); [exact IH | congruence].
Qed.

Lemma Contains_prefix (s sub : string) :
  String.prefix sub s = true -> strings.Contains s sub = true.
Proof. intros Hp. destruct s; cbn [strings.Contains]; rewrite Hp; reflexivity. Qed.

Lemma Contains_append_l (a s sub : string) :
  strings.Contains s sub = true -> strings.Contains (a +:+ s) sub = true.
Proof.
  intros Hs. induction a as [| c a IH].
  - exact Hs.
  - rewrite append_cons. cbn [strings.Contains]. rewrite IH.
    destruct (String.prefix sub (String c (a +:+ s))); reflexivity.
Qed.

(** A string contains whatever stands in its middle. *)
Lemma Contains_middle (a sub b : string) :
  strings.Contains (a +:+ sub +:+ b) sub = true.
Proof. apply Contains_append_l, Contains_prefix, prefix_append. Qed.

Section NetworkPlugin.

Context `{Externals}.

Lemma cniOverride_flags :
  let text := CRIDockerServiceConfTemplate cniOpts in
  strings.Contains text (" --cni-bin-dir=" +:+ CNIBinDir) = true /\
  strings.Contains text (" --cni-cache-dir=" +:+ CNICacheDir) = true /\
  strings.Contains text (" --cni-conf-dir=" +:+ ConfDir) = true /\
  strings.Contains text " --hairpin-mode=promiscuous-bridge" = true /\
  strings.Contains text "--network-plugin=cni" = true.
Proof.
  set (head := "[Service]" +:+ LF +:+ "ExecStart=" +:+ LF +:+
    "ExecStart=/usr/bin/cri-dockerd --container-runtime-endpoint fd:// ").
  cbv zeta. split; [| split; [| split; [| split]]].
  - exact (Contains_middle (head +:+ "--network-plugin=cni")
             (" --cni-bin-dir=" +:+ CNIBinDir)
             (" --cni-cache-dir=" +:+ CNICacheDir +:+ " --cni-conf-dir="
                +:+ ConfDir +:+ " --hairpin-mode=promiscuous-bridge")).
  - exact (Contains_middle
             (head +:+ "--network-plugin=cni" +:+ " --cni-bin-dir=" +:+ CNIBinDir)
             (" --cni-cache-dir=" +:+ CNICacheDir)
             (" --cni-conf-dir=" +:+ ConfDir +:+ " --hairpin-mode=promiscuous-bridge")).
  - exact (Contains_middle
             (head +:+ "--network-plugin=cni" +:+ " --cni-bin-dir=" +:+ CNIBinDir
                +:+ " --cni-cache-dir=" +:+ CNICacheDir)
             (" --cni-conf-dir=" +:+ ConfDir)
             " --hairpin-mode=promiscuous-bridge").
  - exact (Contains_middle
             ((head +:+ "--network-plugin=cni" +:+ " --cni-bin-dir=" +:+ CNIBinDir
                +:+ " --cni-cache-dir=" +:+ CNICacheDir +:+ " --cni-conf-dir=")
                +:+ ConfDir)
             " --hairpin-mode=promiscuous-bridge" "").
  - exact (Contains_middle head "--network-plugin=cni" (cniArguments "cni")).
Qed.

(** C8: with the empty plugin the configurator makes no call at all and
    succeeds.  With ["cni"] it executes the template first, and a failure
    there is returned before anything else happens; then it creates the
    directory, copies the one override file, whose text has the four CNI
    flags, and last restarts [cri-docker] once, the outcome of the restart
    being the result.  A failing step ends the call. *)
Theorem dockerConfigureNetworkPlugin_steps (r : Docker) :
  (forall t res, exec (dockerConfigureNetworkPlugin r "") t res ->
     t = [] /\ res = None) /\
  (forall t res, exec (dockerConfigureNetworkPlugin r "cni") t res ->
     let render := TemplateExecute "criDockerServiceConfTemplate" cniOpts in
     (exists e, t = [render ↦ Some e] /\
        res = Some (ErrWrap e "failed to execute template")) \/
     (exists rr e, t = [render ↦ None; RunCmd mkdirOverrideDir ↦ (rr, Some e)] /\
        res = Some (ErrWrap e "failed to create directory")) \/
     (exists rr e, t = [render ↦ None; RunCmd mkdirOverrideDir ↦ (rr, None);
                        Copy cniOverride ↦ Some e] /\
        res = Some (ErrWrap e "failed to copy template")) \/
     (exists rr, t = [render ↦ None; RunCmd mkdirOverrideDir ↦ (rr, None);
                      Copy cniOverride ↦ None;
                      Init sysinit.Restart "cri-docker" ↦ res])) /\
  (let text := CRIDockerServiceConfTemplate cniOpts in
   strings.Contains text (" --cni-bin-dir=" +:+ CNIBinDir) = true /\
   strings.Contains text (" --cni-cache-dir=" +:+ CNICacheDir) = true /\
   strings.Contains text (" --cni-conf-dir=" +:+ ConfDir) = true /\
   strings.Contains text " --hairpin-mode=promiscuous-bridge" = true).
Proof.
  split; [| split].
  - intros t res Hx. unfold dockerConfigureNetworkPlugin in Hx.
    cbn [String.eqb] in Hx. exec_all Hx. split; reflexivity.
  - intros t res Hx. unfold dockerConfigureNetworkPlugin in Hx.
    change (String.eqb "cni" "") with false in Hx. cbv iota in Hx.
    change (path.Dir CRIDockerServiceConfFile)
      with "/etc/systemd/system/cri-docker.service.d" in Hx.
    fold cniOpts in Hx. fold cniOverride in Hx. fold mkdirOverrideDir in Hx.
    exec_all Hx; cbv zeta.
    + left. eauto.
    + right; left. destruct x0 as [rr err]. cbn [snd] in E. subst err. eauto.
    + right; right; left. destruct x0 as [rr err]. cbn [snd] in E. subst err. eauto.
    + right; right; right. destruct x0 as [rr err]. cbn [snd] in E. subst err. eauto.
  - pose proof cniOverride_flags as HF. cbv zeta in *. tauto.
Qed.

End NetworkPlugin.

Lemma dockerConfigureNetworkPlugin_steps_witness :
  let out := run healthyHost
               (dockerConfigureNetworkPlugin (H := exampleExternals) criDocker "cni") tt in
  let render := TemplateExecute "criDockerServiceConfTemplate"
                  (cniOpts (H := exampleExternals)) in
  let override := cniOverride (H := exampleExternals) in
  (exists e, trace out = [render ↦ Some e] /\
     result out = Some (ErrWrap e "failed to execute template")) \/
  (exists rr e, trace out = [render ↦ None; RunCmd mkdirOverrideDir ↦ (rr, Some e)] /\
     result out = Some (ErrWrap e "failed to create directory")) \/
  (exists rr e, trace out = [render ↦ None; RunCmd mkdirOverrideDir ↦ (rr, None);
                             Copy override ↦ Some e] /\
     result out = Some (ErrWrap e "failed to copy template")) \/
  (exists rr, trace out = [render ↦ None; RunCmd mkdirOverrideDir ↦ (rr, None);
                           Copy override ↦ None;
                           Init sysinit.Restart "cri-docker" ↦ result out]).
Proof.
  apply (proj1 (proj2 (dockerConfigureNetworkPlugin_steps (H := exampleExternals)
                         criDocker))).
  apply run_exec.
Defined.

(** ** Dispatch between the native client and the CRI backend *)

Lemma delegates_first_call {A : Type} (p : Prog A) :
  delegates p -> exists c, first_call p = Some c /\ is_cri c = true.
Proof. intros (c & k & Hc & ->). exists c. split; [reflexivity | exact Hc]. Qed.

Lemma call_delegates (c : Call) : is_cri c = true -> delegates (call c).
Proof. intros Hc. exists c, (fun x => x). split; [exact Hc | reflexivity]. Qed.

Section Dispatch.

Context `{Externals}.

Lemma ListImages_calls (r : Docker) (o : ListImagesOptions) t res :
  exec (ListImages r o) t res ->
  calls t = [RunCmd (exec.Command "docker"
                       ["images"; "--no-trunc"; "--format"; "{{json .}}"])].
Proof. intros Hx. unfold ListImages in Hx. exec_all Hx; reflexivity. Qed.

Lemma BuildImage_calls (r : Docker) src file tag push env opts t res :
  exec (BuildImage r src file tag push env opts) t res ->
  let build :=
    {| Path := "docker"; Args := "docker" :: buildArgs src file tag opts;
       CmdEnv := os_Environ ++ env; Attached := true |} in
  let pushTag :=
    {| Path := "docker"; Args := ["docker"; "push"; tag];
       CmdEnv := []; Attached := true |} in
  calls t = [RunCmd build] \/
  (tag <> "" /\ push = true /\ calls t = [RunCmd build; RunCmd pushTag]).
Proof.
  intros Hx. unfold BuildImage in Hx. cbn [exec.Command Path Args CmdEnv] in Hx.
  exec_all Hx; cbv zeta; try (left; reflexivity).
  all: right; apply andb_prop in E0 as [Ht Hp];
    (split; [| split; [exact Hp | reflexivity]]);
    intros ->; discriminate Ht.
Qed.

(** C1, as the source has it.  In CRI mode [PullImage], [RemoveImage],
    [ListContainers], the four bulk container operations and
    [ContainerLogCmd] are each one call into the CRI backend, with the
    same arguments, whose answer they return.  Whatever the mode,
    [ListImages], [Version], [CGroupDriver], [BuildImage], [PushImage],
    [SaveImage], [LoadImage] and [TagImage] only run the docker client,
    and [Available] only looks executables up on PATH. *)
Theorem dispatch_by_UseCRI (r : Docker) :
  (UseCRI r = true ->
   (forall name, PullImage r name = call (pullCRIImage name)) /\
   (forall name, RemoveImage r name = call (removeCRIImage name)) /\
   (forall o, ListContainers r o = call (listCRIContainers "" o)) /\
   (forall ids, KillContainers r ids = call (killCRIContainers ids)) /\
   (forall ids, StopContainers r ids = call (stopCRIContainers ids)) /\
   (forall ids, PauseContainers r ids = call (pauseCRIContainers "" ids)) /\
   (forall ids, UnpauseContainers r ids = call (unpauseCRIContainers "" ids)) /\
   (forall id len follow,
      ContainerLogCmd r id len follow = call (criContainerLogCmd id len follow))) /\
  (forall o t res, exec (ListImages r o) t res ->
     calls t = [RunCmd (exec.Command "docker"
                          ["images"; "--no-trunc"; "--format"; "{{json .}}"])]) /\
  (forall t res, exec (Version r) t res ->
     calls t = [RunCmd (exec.Command "docker"
                          ["version"; "--format"; "{{.Server.Version}}"])]) /\
  (forall t res, exec (CGroupDriver r) t res ->
     calls t = [RunCmd (exec.Command "docker"
                          ["info"; "--format"; "{{.CgroupDriver}}"])]) /\
  (forall src file tag push env opts t res,
     exec (BuildImage r src file tag push env opts) t res ->
     native_only t /\ t <> []) /\
  (forall name t res, exec (PushImage r name) t res ->
     calls t = [RunCmd (exec.Command "docker" ["push"; name])]) /\
  (forall name path t res, exec (SaveImage r name path) t res ->
     calls t = [RunCmd (exec.Command "/bin/bash"
                          ["-c"; "docker save '" +:+ name +:+ "' | sudo tee "
                                   +:+ path +:+ " >/dev/null"])]) /\
  (forall path t res, exec (LoadImage r path) t res ->
     calls t = [RunCmd (exec.Command "/bin/bash"
                          ["-c"; "sudo cat " +:+ path +:+ " | docker load"])]) /\
  (forall source target t res, exec (TagImage r source target) t res ->
     calls t = [RunCmd (exec.Command "docker" ["tag"; source; target])]) /\
  (forall t res, exec (Available r) t res ->
     t <> [] /\ Forall (fun c => is_LookPath c = true) (calls t)).
Proof.
  split.
  { intros HC.
    unfold PullImage, RemoveImage, ListContainers, KillContainers,
      StopContainers, PauseContainers, UnpauseContainers, ContainerLogCmd.
    rewrite HC. repeat split. }
  split; [intros o t res; apply ListImages_calls |].
  split; [intros t res Hx; unfold Version in Hx; exec_all Hx; reflexivity |].
  split; [intros t res Hx; unfold CGroupDriver in Hx; exec_all Hx; reflexivity |].
  split.
  { intros src file tag push env opts t res Hx.
    apply BuildImage_calls in Hx. cbv zeta in Hx.
    unfold native_only.
    destruct Hx as [Hc | (_ & _ & Hc)]; rewrite Hc;
      (split; [repeat constructor | intros ->; discriminate Hc]). }
  split; [intros name t res Hx; unfold PushImage in Hx; exec_all Hx; reflexivity |].
  split; [intros name path t res Hx; unfold SaveImage in Hx; exec_all Hx; reflexivity |].
  split; [intros path t res Hx; unfold LoadImage in Hx; exec_all Hx; reflexivity |].
  split; [intros source target t res Hx; unfold TagImage in Hx; exec_all Hx; reflexivity |].
  intros t res Hx. unfold Available in Hx.
  destruct (semver.GTE (KubernetesVersion r) v1_24);
    exec_all Hx; (split; [discriminate | repeat constructor]).
Qed.

End Dispatch.

Lemma dispatch_by_UseCRI_witness :
  UseCRI criDocker = true /\
  PullImage criDocker "nginx" = call (pullCRIImage "nginx") /\
  KillContainers criDocker ["3f1a"; "9c2e"] = call (killCRIContainers ["3f1a"; "9c2e"]) /\
  calls (trace (run healthyHost (Version criDocker) tt))
    = [RunCmd (exec.Command "docker" ["version"; "--format"; "{{.Server.Version}}"])].
Proof.
  pose proof (dispatch_by_UseCRI (H := exampleExternals) criDocker) as [Hcri Hnat].
  split; [reflexivity |].
  split; [apply (Hcri eq_refl) |].
  split; [apply (Hcri eq_refl) |].
  destruct Hnat as (_ & Hv & _).
  apply (Hv _ (result (run healthyHost (Version criDocker) tt))), run_exec.
Defined.

(** C1 as worded fails for the image listing: in CRI mode [ListImages]
    does not hand its work to the CRI backend, it runs [docker images] like
    in native mode. *)
Lemma ListImages_ignores_UseCRI :
  UseCRI criDocker = true /\
  ~ delegates (ListImages (H := exampleExternals) criDocker noOptions) /\
  calls (trace (run healthyHost
                  (ListImages (H := exampleExternals) criDocker noOptions) tt))
    = [RunCmd (exec.Command "docker"
                 ["images"; "--no-trunc"; "--format"; "{{json .}}"])].
Proof.
  split; [reflexivity |]. split; [| reflexivity].
  intros Hd. apply delegates_first_call in Hd as (c & Hc & Hcri).
  simpl in Hc. injection Hc as <-. discriminate Hcri.
Qed.

(** ** Bulk container operations *)









(** ** Preloading images *)

Lemma cons_eq_inv {A : Type} (a b : A) (l m : list A) :
  a :: l = b :: m -> a = b /\ l = m.
Proof. intros E. injection E as -> ->. split; reflexivity. Qed.

(** Taking apart an equation between traces, or the membership of an
    interaction in a trace that is spelled out. *)
Ltac trace_inv :=
  repeat match goal with
  | H : _ :: _ = _ :: _ |- _ => apply cons_eq_inv in H; destruct H as [? ?]
  | H : [] = _ :: _ |- _ => discriminate H
  | H : _ :: _ = [] |- _ => discriminate H
  | H : _ ∈ _ :: _ |- _ => apply elem_of_cons in H; destruct H as [H | H]
  | H : _ ∈ [] |- _ => apply elem_of_nil in H; destruct H
  | H : (?c ↦ _) = (?c ↦ _) |- _ => apply answered_inj in H
  | H : (?c ↦ _) = (?d ↦ _) |- _ =>
      apply answered_call in H; cbv in H; discriminate H
  end.

Section Preloading.

Context `{Externals}.

Lemma collectPreloaded_from (lines : list string) (m : gset string) (x : string) :
  x ∈ fold_left (fun m i => {[ TrimDockerIO i ]} ∪ m) lines m <->
  x ∈ m \/ exists j, j ∈ lines /\ x = TrimDockerIO j.
Proof.
  revert m. induction lines as [| l lines IH]; intros m; simpl.
  - split; [auto | intros [Hm | (j & Hj & _)]; [exact Hm | inversion Hj]].
  - rewrite IH. split.
    + intros [Hm | (j & Hj & ->)].
      * apply elem_of_union in Hm as [Hl | Hm]; [| auto].
        apply elem_of_singleton in Hl as ->.
        right. exists l. split; [left | reflexivity].
      * right. exists j. split; [right; exact Hj | reflexivity].
    + intros [Hm | (j & Hj & ->)].
      * left. apply elem_of_union. auto.
      * apply elem_of_cons in Hj as [-> | Hj].
        -- left. apply elem_of_union. left. apply elem_of_singleton. reflexivity.
        -- right. exists j. auto.
Qed.

Lemma collectPreloaded_elem (lines : list string) (x : string) :
  x ∈ collectPreloaded lines <-> exists j, j ∈ lines /\ x = TrimDockerIO j.
Proof.
  unfold collectPreloaded. rewrite collectPreloaded_from. split.
  - intros [Hm | Hj]; [| exact Hj]. apply not_elem_of_empty in Hm. destruct Hm.
  - auto.
Qed.

Lemma allPreloaded_true (s : gset string) (images : list string) :
  allPreloaded s images = true <-> forall i, i ∈ images -> TrimDockerIO i ∈ s.
Proof.
  induction images as [| i images IH]; simpl.
  - split; [intros _ i Hi; inversion Hi | reflexivity].
  - destruct (bool_decide_reflect (TrimDockerIO i ∈ s)) as [Hi | Hi].
    + rewrite IH. split.
      * intros Hall j Hj. apply elem_of_cons in Hj as [-> | Hj]; auto.
      * intros Hall j Hj. apply Hall. right. exact Hj.
    + split; [discriminate |].
      intros Hall. destruct Hi. apply Hall. left.
Qed.



(** The commands of a spelled-out trace do not include [c]. *)
Ltac not_a_command :=
  let Hc := fresh "Hc" in
  intros Hc; cbn in Hc;
  repeat (apply elem_of_cons in Hc as [Hc | Hc]; [cbv in Hc; discriminate Hc |]);
  apply elem_of_nil in Hc; exact Hc.

(** C9: on a host where the bundle applies, the image list is known, the
    listing does not show every expected image and the lookup of [lz4]
    fails, [Preload] makes exactly five calls (bundle lookup, image list,
    image listing, saving the reference store, [which lz4]) and returns
    the missing-feature error for ["lz4"]: no file is copied, no extraction
    runs.  Of the executions in general: one in which the lookup of [lz4]
    fails returns that error and has neither copied a file nor run the
    extraction; and once a bundle applies, the image list is known and the
    images are not all present, the reference store is saved, [which lz4]
    runs next, and its failure ends the call. *)
Theorem Preload_missing_lz4 (r : Docker) (cc : config.ClusterConfig) :
  (forall (W : Type) (env : Env W) (w : W) (images : list string) x s rr e,
     answers env w [bundleLookup cc ↦ true; imageList cc ↦ (images, None);
                    RunCmd dockerImagesCmd ↦ x; StorageSave ↦ s;
                    RunCmd whichLz4 ↦ (rr, Some e)] ->
     imagesPreloadedIn x images = false ->
     trace (run env (Preload r cc) w)
       = [bundleLookup cc ↦ true; imageList cc ↦ (images, None);
          RunCmd dockerImagesCmd ↦ x; StorageSave ↦ s;
          RunCmd whichLz4 ↦ (rr, Some e)] /\
     result (run env (Preload r cc) w) = Some (NewErrISOFeature "lz4") /\
     (result (run env (Preload r cc) w) ≫= isISOFeature) = Some "lz4") /\
  (forall t res, exec (Preload r cc) t res ->
     (forall rr e, (RunCmd whichLz4 ↦ (rr, Some e)) ∈ t ->
        res = Some (NewErrISOFeature "lz4") /\
        (res ≫= isISOFeature) = Some "lz4" /\
        Forall (fun c => is_Copy c = false) (calls t) /\
        extractCmd preloadDest ∉ commands t) /\
     (forall images x t',
        t = (bundleLookup cc ↦ true) :: (imageList cc ↦ (images, None))
            :: (RunCmd dockerImagesCmd ↦ x) :: t' ->
        imagesPreloadedIn x images = false ->
        exists s y t'',
          t' = (StorageSave ↦ s) :: (RunCmd whichLz4 ↦ y) :: t'' /\
          (snd y <> None -> t'' = [] /\ res = Some (NewErrISOFeature "lz4")))).
Proof.
  split.
  - intros W env w images x s rr e Hans Hno.
    assert (Hx : exec (Preload r cc)
                   [bundleLookup cc ↦ true; imageList cc ↦ (images, None);
                    RunCmd dockerImagesCmd ↦ x; StorageSave ↦ s;
                    RunCmd whichLz4 ↦ (rr, Some e)]
                   (Some (NewErrISOFeature "lz4"))).
    { unfold Preload, dockerImagesPreloaded, bundleLookup, imageList, call.
      cbn [bind]. apply exec_Vis. cbn [negb].
      apply exec_Vis. cbn [bind]. apply exec_Vis.
      unfold imagesPreloadedIn in Hno. destruct x as [rr0 [e0 |]]; cbn [fst snd] in Hno.
      - cbn [bind]. apply exec_Vis. apply exec_Vis. cbn [snd]. apply exec_Ret.
      - cbn [bind]. rewrite Hno. apply exec_Vis. apply exec_Vis.
        cbn [snd]. apply exec_Ret. }
    destruct (exec_run env _ _ _ Hx w Hans) as [-> ->].
    split; [reflexivity |]. split; reflexivity.
  - intros t res Hx. unfold bundleLookup, imageList.
    unfold Preload, dockerImagesPreloaded, Restart in Hx.
    split.
    + exec_all Hx.
      all: intros rrL eL Hin; trace_inv; subst; cbn [snd] in *; try discriminate.
      all: split; [reflexivity |]; split; [reflexivity |].
      all: split; [repeat constructor | not_a_command].
    + intros images y t' Ht Hno. unfold imagesPreloadedIn in Hno.
      exec_all Hx.
      all: trace_inv; subst; cbn [fst snd] in *; try discriminate; try congruence.
      all: do 3 eexists; (split; [reflexivity |]); cbn [snd]; try congruence.
      all: intros _; split; reflexivity.
Qed.

End Preloading.

Lemma Preload_missing_lz4_witness :
  let out := run (preloadHost expectedAB presentA false)
               (Preload (H := exampleExternals) criDocker exampleConfig) tt in
  imagesPreloadedIn (H := exampleExternals) (presentA, None) expectedAB = false /\
  trace out = [PreloadExists "v1.25.0" "docker" "docker" ↦ true;
               Kubeadm "" "v1.25.0" ↦ (expectedAB, None);
               RunCmd dockerImagesCmd ↦ (presentA, None);
               StorageSave ↦ None;
               RunCmd whichLz4 ↦ (noOutput, Some someErr)] /\
  result out = Some (NewErrISOFeature "lz4") /\
  (result out ≫= isISOFeature) = Some "lz4".
Proof.
  cbv zeta. split; [vm_compute; reflexivity |].
  apply (proj1 (Preload_missing_lz4 (H := exampleExternals) criDocker exampleConfig)
           unit (preloadHost expectedAB presentA false) tt
           expectedAB (presentA, None) None noOutput someErr).
  - cbn. repeat (exists tt; split; [reflexivity |]). exact I.
  - vm_compute. reflexivity.
Defined.

Section PreloadMembership.

Context `{Externals}.




End PreloadMembership.







(** * Further properties of the adapter *)

(** ** Registry-qualified names *)

(** X1: the result of [addDockerIO] is always registry-qualified (it has a
    slash, and a dot before its first slash); the transform only ever puts
    one of two fixed prefixes in front of the name; and the names it leaves
    unchanged are exactly the registry-qualified ones. *)
Theorem addDockerIO_qualifies (name : string) :
  has_slash (addDockerIO name) = true /\
  has_dot (first_segment (addDockerIO name)) = true /\
  (exists p, addDockerIO name = p +:+ name /\
     (p = "" \/ p = "docker.io/" \/ p = "docker.io/library/")) /\
  (addDockerIO name = name <->
   has_slash name = true /\ has_dot (first_segment name) = true).
Proof.
  assert (Hq : forall rest,
    has_slash ("docker.io/" +:+ rest) = true /\
    has_dot (first_segment ("docker.io/" +:+ rest)) = true).
  { intros rest.
    change ("docker.io/" +:+ rest) with ("docker.io" +:+ "/" +:+ rest).
    split; [apply has_slash_app |].
    rewrite first_segment_app; reflexivity. }
  assert (Hres : has_slash (addDockerIO name) = true /\
                 has_dot (first_segment (addDockerIO name)) = true /\
                 exists p, addDockerIO name = p +:+ name /\
                   (p = "" \/ p = "docker.io/" \/ p = "docker.io/library/")).
  { destruct (has_slash name) eqn:Hs.
    - destruct (has_dot (first_segment name)) eqn:Hd.
      + rewrite (addDockerIO_qualified name Hs Hd).
        split; [exact Hs |]. split; [exact Hd |]. exists "". auto.
      + rewrite (addDockerIO_user name Hs Hd).
        destruct (Hq name) as [H1 H2].
        split; [exact H1 |]. split; [exact H2 |]. exists "docker.io/". auto.
    - rewrite (addDockerIO_bare name Hs).
      destruct (Hq ("library/" +:+ name)) as [H1 H2].
      split; [exact H1 |]. split; [exact H2 |]. exists "docker.io/library/". auto. }
  destruct Hres as (H1 & H2 & H3).
  split; [exact H1 |]. split; [exact H2 |]. split; [exact H3 |].
  split.
  - intros Heq. rewrite Heq in H1, H2. auto.
  - intros [Hs Hd]. apply addDockerIO_qualified; assumption.
Qed.

(** ** The socket path *)

(** X2: [SocketPath] is never empty, and is the configured socket whenever
    one is configured; so no value of [KubeletOptions] is ever empty, in
    either mode, and the key [container-runtime] is always bound. *)
Theorem endpoints_never_empty (r : Docker) :
  SocketPath r <> "" /\
  (Socket r <> "" -> SocketPath r = Socket r) /\
  (forall k v, KubeletOptions r !! k = Some v -> v <> "") /\
  is_Some (KubeletOptions r !! "container-runtime").
Proof.
  assert (HS : SocketPath r <> "" /\ (Socket r <> "" -> SocketPath r = Socket r)).
  { unfold SocketPath.
    destruct (String.eqb_spec (Socket r) "") as [He | Hne]; cbn [negb].
    - split; [discriminate | congruence].
    - split; [exact Hne | reflexivity]. }
  destruct HS as [Hne Hset].
  split; [exact Hne |]. split; [exact Hset |].
  unfold KubeletOptions. destruct (UseCRI r).
  - split; [| eexists; by simplify_map_eq].
    intros k v Hk.
    repeat (apply lookup_insert_Some in Hk as [[_ <-] | [_ Hk]];
            [first [discriminate | exact Hne] |]).
    apply lookup_singleton_Some in Hk as [_ <-]. discriminate.
  - split; [| eexists; by simplify_map_eq].
    intros k v Hk. apply lookup_singleton_Some in Hk as [_ <-]. discriminate.
Qed.

Lemma endpoints_never_empty_witness :
  Socket (Build_Docker "/var/run/cri-dockerd.sock" "" v1_25_0 true "cri-docker.socket") <> "" /\
  SocketPath (Build_Docker "/var/run/cri-dockerd.sock" "" v1_25_0 true "cri-docker.socket")
    = "/var/run/cri-dockerd.sock" /\
  KubeletOptions criDocker !! "image-service-endpoint" = Some "/var/run/dockershim.sock" /\
  "/var/run/dockershim.sock" <> "".
Proof.
  split; [discriminate |].
  split.
  - apply (proj1 (proj2 (endpoints_never_empty
                           (Build_Docker "/var/run/cri-dockerd.sock" "" v1_25_0 true
                              "cri-docker.socket")))).
    discriminate.
  - split; [reflexivity |].
    apply (proj1 (proj2 (proj2 (endpoints_never_empty criDocker)))
             "image-service-endpoint").
    reflexivity.
Defined.

(** ** Outcomes of [Available] and [Disable] *)

(** X3: [Available] looks the executables up in a fixed order and stops at
    the first that does not resolve, whose error it returns; it succeeds
    only when every executable it needs has resolved: [cri-dockerd],
    [dockerd] and [docker] from Kubernetes 1.24 on, [docker] alone below. *)
Theorem Available_outcome (r : Docker) t res :
  exec (Available r) t res ->
  let needed :=
    if semver.GTE (KubernetesVersion r) v1_24
    then [LookPath "cri-dockerd"; LookPath "dockerd"; LookPath "docker"]
    else [LookPath "docker"] in
  calls t `prefix_of` needed /\
  (res = None -> calls t = needed /\ no_failure t) /\
  (forall e, res = Some e ->
     exists pre file, t = pre ++ [LookPath file ↦ Some e] /\ no_failure pre).
Proof.
  intros Hx. unfold Available in Hx. cbv zeta. unfold no_failure.
  destruct (semver.GTE (KubernetesVersion r) v1_24); exec_all Hx.
  all: try match goal with x : option Err |- _ => destruct x end.
  all: split; [cbn; repeat first [apply prefix_cons | apply prefix_nil] |].
  all: split;
    [intros Hr; first [discriminate Hr | split; [reflexivity | repeat constructor]] |].
  all: intros e' He; try discriminate He; injection He as <-.
  - exists [], "cri-dockerd". split; [reflexivity | constructor].
  - exists [LookPath "cri-dockerd" ↦ None], "dockerd".
    split; [reflexivity | repeat constructor].
  - exists [LookPath "cri-dockerd" ↦ None; LookPath "dockerd" ↦ None], "docker".
    split; [reflexivity | repeat constructor].
  - exists [], "docker". split; [reflexivity | constructor].
Qed.

Lemma Available_outcome_witness :
  let out := run (hostWithout "dockerd") (Available criDocker) tt in
  exists pre file,
    trace out = pre ++ [LookPath file ↦ Some (ErrNew "executable file not found in $PATH")] /\
    no_failure pre.
Proof.
  cbv zeta.
  apply (proj2 (proj2 (Available_outcome criDocker _ _
                         (run_exec (hostWithout "dockerd") (Available criDocker) tt)))).
  reflexivity.
Defined.

Lemma follows_success steps t :
  follows steps t None -> calls t = step_call <$> steps.
Proof.
  intros Hf. remember None as res eqn:Hres.
  induction Hf; try discriminate Hres; cbn.
  - reflexivity.
  - f_equal. apply IHHf, Hres.
  - f_equal. apply IHHf, Hres.
Qed.

Lemma follows_failure steps t e :
  follows steps t (Some e) ->
  exists pre a svc,
    t = pre ++ [Init a svc ↦ Some e] /\ (a, svc, Fatal) ∈ steps.
Proof.
  intros Hf. remember (Some e) as res eqn:Hres.
  induction Hf; try discriminate Hres.
  - destruct (IHHf Hres) as (pre & a' & svc' & -> & Hin).
    exists ((Init a svc ↦ None) :: pre), a', svc'. split; [reflexivity | right; exact Hin].
  - destruct (IHHf Hres) as (pre & a' & svc' & -> & Hin).
    exists ((Init a svc ↦ Some e0) :: pre), a', svc'.
    split; [reflexivity | right; exact Hin].
  - injection Hres as ->. exists [], a, svc. split; [reflexivity | left].
Qed.

Lemma Disable_follows (r : Docker) t res :
  exec (Disable r) t res -> follows (DisableSteps r) t res.
Proof.
  intros Hx. unfold Disable, DisableSteps in *.
  destruct (String.eqb (CRIService r) ""); cbn [negb app] in *.
  all: exec_all Hx.
  all: repeat match goal with x : option Err |- _ => destruct x end.
  all: repeat constructor.
Qed.

(** X4: when [Disable] succeeds every step has run, in order, the mask of
    [docker.service] last; when it fails, the error is the answer of the
    last call made, and that call is one of the fatal steps of the table. *)
Theorem Disable_outcome (r : Docker) t res :
  exec (Disable r) t res ->
  (res = None -> calls t = step_call <$> DisableSteps r) /\
  (forall e, res = Some e ->
     exists pre a svc,
       t = pre ++ [Init a svc ↦ Some e] /\ (a, svc, Fatal) ∈ DisableSteps r).
Proof.
  intros Hx. apply Disable_follows in Hx. split.
  - intros ->. apply follows_success. exact Hx.
  - intros e ->. apply follows_failure. exact Hx.
Qed.

Lemma Disable_outcome_witness :
  let out := run healthyHost (Disable criDocker) tt in
  calls (trace out) = step_call <$> DisableSteps criDocker.
Proof.
  cbv zeta.
  apply (proj1 (Disable_outcome criDocker _ _
                  (run_exec healthyHost (Disable criDocker) tt))).
  reflexivity.
Defined.

(** ** Enabling the runtime *)

Lemma calls_effect_answered (e : Effect) (x : error) t :
  calls (effect_answered e x :: t) = effect_call e :: calls t.
Proof. destruct e; reflexivity. Qed.



Lemma proceeds_prefix steps t res :
  proceeds steps t res ->
  calls t `prefix_of` ((fun s => effect_call (fst s)) <$> steps).
Proof.
  induction 1 as [| e f rest t res Hp IH | e err rest t res Hp IH | e err rest];
    rewrite ?calls_effect_answered, ?fmap_cons.
  - apply prefix_nil.
  - apply prefix_cons. exact IH.
  - apply prefix_cons. exact IH.
  - apply prefix_cons, prefix_nil.
Qed.

(** The shape of every execution of [Enable] outside a user namespace: the
    trace of [disableOthers] when asked for, the trace of
    [populateCRIConfig], then the adapter's own steps. *)
Lemma Enable_exec (P : PackageHelpers) (r : Docker) (disOthers fs : bool) t res :
  exec (Enable P r disOthers fs false) t res ->
  exists td tp town perr,
    t = td ++ tp ++ town /\
    (if disOthers then exists derr, exec (disableOthers P r) td derr else td = []) /\
    exec (populateCRIConfig P (SocketPath r)) tp perr /\
    match perr with
    | Some e => town = [] /\ res = Some e
    | None => proceeds (EnableSteps r fs) town res
    end.
Proof.
  intros Hx. unfold Enable in Hx. cbv zeta in Hx.
  assert (Hconf : forall t2,
    exec (err <- populateCRIConfig P (SocketPath r) ;;
          match err with
          | Some e => Ret (Some e)
          | None =>
              err0 <- call (Init sysinit.Unmask "docker.service") ;;
              match err0 with
              | Some e => Ret (Some e)
              | None =>
                  _ <- call (Init sysinit.Enable "docker.socket") ;;
                  if fs then
                    err1 <- forceSystemd r ;;
                    match err1 with
                    | Some e => Ret (Some e)
                    | None =>
                        err2 <- call (Init sysinit.Restart "docker") ;;
                        match err2 with
                        | Some e => Ret (Some e)
                        | None =>
                            if negb (String.eqb (CRIService r) "") then
                              err3 <- call (Init sysinit.Enable (CRIService r)) ;;
                              match err3 with
                              | Some e => Ret (Some e)
                              | None =>
                                  err4 <- call (Init sysinit.Start (CRIService r)) ;;
                                  match err4 with
                                  | Some e => Ret (Some e)
                                  | None => Ret None
                                  end
                              end
                            else Ret None
                        end
                    end
                  else
                    err2 <- call (Init sysinit.Restart "docker") ;;
                    match err2 with
                    | Some e => Ret (Some e)
                    | None =>
                        if negb (String.eqb (CRIService r) "") then
                          err3 <- call (Init sysinit.Enable (CRIService r)) ;;
                          match err3 with
                          | Some e => Ret (Some e)
                          | None =>
                              err4 <- call (Init sysinit.Start (CRIService r)) ;;
                              match err4 with
                              | Some e => Ret (Some e)
                              | None => Ret None
                              end
                          end
                        else Ret None
                    end
              end
          end) t2 res ->
    exists tp town perr,
      t2 = tp ++ town /\
      exec (populateCRIConfig P (SocketPath r)) tp perr /\
      match perr with
      | Some e => town = [] /\ res = Some e
      | None => proceeds (EnableSteps r fs) town res
      end).
  { intros t2 H2.
    apply exec_bind_inv in H2 as (tp & perr & town & Hp & Hown & ->).
    exists tp, town, perr. split; [reflexivity |]. split; [exact Hp |].
    destruct perr as [e |].
    - apply exec_Ret_inv in Hown as [-> ->]. split; reflexivity.
    - unfold EnableSteps, forceSystemd in *.
      destruct fs; destruct (String.eqb (CRIService r) ""); cbn [negb app] in *.
      all: exec_all Hown.
      all: repeat match goal with x : option Err |- _ => destruct x end.
      all: repeat first
             [ apply proceeds_done
             | apply (proceeds_fatal (SvcAction _ _))
             | apply (proceeds_fatal (CopyAsset _))
             | apply (proceeds_ok (SvcAction _ _))
             | apply (proceeds_ok (CopyAsset _))
             | apply (proceeds_logged (SvcAction _ _)) ]. }
  destruct disOthers.
  - apply exec_bind_inv in Hx as (td & derr & t2 & Hd & H2 & ->).
    apply Hconf in H2 as (tp & town & perr & -> & Hp & Hown).
    exists td, tp, town, perr. repeat split; eauto.
  - apply Hconf in Hx as (tp & town & perr & -> & Hp & Hown).
    exists [], tp, town, perr. repeat split; eauto.
Qed.

(** X5: asked to run in a user namespace, [Enable] fails at once with its
    own error and touches nothing on the host, whatever the other flags. *)
Theorem Enable_rejects_user_namespace (P : PackageHelpers) (r : Docker)
    (disOthers fs : bool) t res :
  exec (Enable P r disOthers fs true) t res ->
  t = [] /\ res = Some (ErrNew "inUserNamespace must not be true for docker").
Proof.
  intros Hx. unfold Enable in Hx. exec_all Hx. split; reflexivity.
Qed.

Lemma Enable_rejects_user_namespace_witness :
  let out := run healthyHost (Enable examplePackage criDocker true true true) tt in
  trace out = [] /\
  result out = Some (ErrNew "inUserNamespace must not be true for docker").
Proof.
  cbv zeta.
  apply (Enable_rejects_user_namespace examplePackage criDocker true true).
  apply run_exec.
Defined.

(** X6: outside a user namespace every execution of [Enable] is: the run of
    [disableOthers] when asked for, whose outcome is ignored; the run of
    [populateCRIConfig] on the socket path, whose failure is returned with
    nothing more done; then the steps of [EnableSteps] in order: unmask
    [docker.service] (fatal), enable [docker.socket] (logged), write the
    daemon configuration when systemd is forced (fatal), restart [docker]
    (fatal), and enable then start the CRI service when there is one (both
    fatal). *)
Theorem Enable_order (P : PackageHelpers) (r : Docker) (disOthers fs : bool) t res :
  exec (Enable P r disOthers fs false) t res ->
  exists td tp town perr,
    t = td ++ tp ++ town /\
    (if disOthers then exists derr, exec (disableOthers P r) td derr else td = []) /\
    exec (populateCRIConfig P (SocketPath r)) tp perr /\
    match perr with
    | Some e => town = [] /\ res = Some e
    | None =>
        proceeds (EnableSteps r fs) town res /\
        calls town `prefix_of` ((fun s => effect_call (fst s)) <$> EnableSteps r fs)
    end.
Proof.
  intros Hx. apply Enable_exec in Hx as (td & tp & town & perr & Ht & Hd & Hp & Hown).
  exists td, tp, town, perr. repeat (split; [assumption |]).
  destruct perr; [exact Hown |]. split; [exact Hown |].
  apply proceeds_prefix with res. exact Hown.
Qed.

Lemma Enable_order_witness :
  let out := run hostStuckSocket (Enable examplePackage criDocker true true false) tt in
  exists td tp town perr,
    trace out = td ++ tp ++ town /\
    (exists derr, exec (disableOthers examplePackage criDocker) td derr) /\
    exec (populateCRIConfig examplePackage (SocketPath criDocker)) tp perr /\
    match perr with
    | Some e => town = [] /\ result out = Some e
    | None =>
        proceeds (EnableSteps criDocker true) town (result out) /\
        calls town `prefix_of`
          ((fun s => effect_call (fst s)) <$> EnableSteps criDocker true)
    end.
Proof.
  cbv zeta.
  apply (Enable_order examplePackage criDocker true true).
  apply run_exec.
Defined.



(** ** Image operations on the native client *)

Lemma append_assoc (a b c : string) : (a +:+ b) +:+ c = a +:+ (b +:+ c).
Proof.
  induction a as [| x a IH]; [reflexivity |].
  rewrite !append_cons, IH. reflexivity.
Qed.

Ltac one_command Hx :=
  exec_all Hx;
  repeat match goal with
  | x : (RunResult * error)%type |- _ => destruct x
  end;
  cbn [fst snd] in *; subst;
  do 2 eexists; split; reflexivity.

(** X8: on the native path each image operation runs exactly one command;
    it succeeds exactly when that command does, and otherwise returns the
    command's error wrapped with the operation's label.  [PullImage] and
    [RemoveImage] are on the native path when [UseCRI] is off, the others
    always. *)
Theorem native_image_operations (r : Docker) :
  (UseCRI r = false -> forall name t res, exec (PullImage r name) t res ->
     exists rr err,
       t = [RunCmd (exec.Command "docker" ["pull"; name]) ↦ (rr, err)] /\
       res = (fun e => ErrWrap e "pull image docker") <$> err) /\
  (UseCRI r = false -> forall name t res, exec (RemoveImage r name) t res ->
     exists rr err,
       t = [RunCmd (exec.Command "docker" ["rmi"; name]) ↦ (rr, err)] /\
       res = (fun e => ErrWrap e "remove image docker") <$> err) /\
  (forall source target t res, exec (TagImage r source target) t res ->
     exists rr err,
       t = [RunCmd (exec.Command "docker" ["tag"; source; target]) ↦ (rr, err)] /\
       res = (fun e => ErrWrap e "tag image docker") <$> err) /\
  (forall name t res, exec (PushImage r name) t res ->
     exists rr err,
       t = [RunCmd (exec.Command "docker" ["push"; name]) ↦ (rr, err)] /\
       res = (fun e => ErrWrap e "push image docker") <$> err) /\
  (forall name path t res, exec (SaveImage r name path) t res ->
     exists rr err,
       t = [RunCmd (exec.Command "/bin/bash"
                      ["-c"; "docker save '" +:+ name +:+ "' | sudo tee "
                               +:+ path +:+ " >/dev/null"]) ↦ (rr, err)] /\
       res = (fun e => ErrWrap e "saveimage docker") <$> err) /\
  (forall path t res, exec (LoadImage r path) t res ->
     exists rr err,
       t = [RunCmd (exec.Command "/bin/bash"
                      ["-c"; "sudo cat " +:+ path +:+ " | docker load"]) ↦ (rr, err)] /\
       res = (fun e => ErrWrap e "loadimage docker") <$> err).
Proof.
  split; [intros HC name t res Hx; unfold PullImage in Hx; rewrite HC in Hx;
          one_command Hx |].
  split; [intros HC name t res Hx; unfold RemoveImage in Hx; rewrite HC in Hx;
          one_command Hx |].
  split; [intros source target t res Hx; unfold TagImage in Hx; one_command Hx |].
  split; [intros name t res Hx; unfold PushImage in Hx; one_command Hx |].
  split; [intros name path t res Hx; unfold SaveImage in Hx; one_command Hx |].
  intros path t res Hx; unfold LoadImage in Hx; one_command Hx.
Qed.

Lemma native_image_operations_witness :
  UseCRI nativeDocker = false /\
  exists rr err,
    trace (run (hostRunning failing) (PullImage nativeDocker "nginx") tt)
      = [RunCmd (exec.Command "docker" ["pull"; "nginx"]) ↦ (rr, err)] /\
    result (run (hostRunning failing) (PullImage nativeDocker "nginx") tt)
      = (fun e => ErrWrap e "pull image docker") <$> err.
Proof.
  split; [reflexivity |].
  apply (proj1 (native_image_operations nativeDocker) eq_refl "nginx").
  apply run_exec.
Defined.

(** X9: on the native path each bulk container operation on a non-empty
    list runs the one command [docker <verb> ids...]; it succeeds exactly
    when that command does, and otherwise returns the command's error
    wrapped with the operation's label. *)
Theorem native_bulk_operations (r : Docker) (ids : list string) :
  UseCRI r = false -> ids <> [] ->
  (forall t res, exec (KillContainers r ids) t res ->
     exists rr err,
       t = [RunCmd (exec.Command "docker" (["rm"; "-f"] ++ ids)) ↦ (rr, err)] /\
       res = (fun e => ErrWrap e "killing containers docker") <$> err) /\
  (forall t res, exec (StopContainers r ids) t res ->
     exists rr err,
       t = [RunCmd (exec.Command "docker" (["stop"] ++ ids)) ↦ (rr, err)] /\
       res = (fun e => ErrWrap e "docker") <$> err) /\
  (forall t res, exec (PauseContainers r ids) t res ->
     exists rr err,
       t = [RunCmd (exec.Command "docker" (["pause"] ++ ids)) ↦ (rr, err)] /\
       res = (fun e => ErrWrap e "docker") <$> err) /\
  (forall t res, exec (UnpauseContainers r ids) t res ->
     exists rr err,
       t = [RunCmd (exec.Command "docker" (["unpause"] ++ ids)) ↦ (rr, err)] /\
       res = (fun e => ErrWrap e "docker") <$> err).
Proof.
  intros HC Hne. destruct ids as [| i ids]; [congruence |].
  unfold KillContainers, StopContainers, PauseContainers, UnpauseContainers.
  rewrite HC. cbn [length Nat.eqb].
  repeat split; intros t res Hx; one_command Hx.
Qed.

Lemma native_bulk_operations_witness :
  UseCRI nativeDocker = false /\ ["3f1a"; "9c2e"] <> [] /\
  exists rr err,
    trace (run healthyHost (StopContainers nativeDocker ["3f1a"; "9c2e"]) tt)
      = [RunCmd (exec.Command "docker" (["stop"] ++ ["3f1a"; "9c2e"])) ↦ (rr, err)] /\
    result (run healthyHost (StopContainers nativeDocker ["3f1a"; "9c2e"]) tt)
      = (fun e => ErrWrap e "docker") <$> err.
Proof.
  split; [reflexivity |]. split; [discriminate |].
  apply (proj1 (proj2 (native_bulk_operations nativeDocker ["3f1a"; "9c2e"]
                         eq_refl ltac:(discriminate)))).
  apply run_exec.
Defined.

(** ** Building images *)

Lemma fold_left_snoc_map {A B : Type} (f : B -> A) (l : list B) (acc : list A) :
  fold_left (fun args x => args ++ [f x]) l acc = acc ++ map f l.
Proof.
  revert acc. induction l as [| x l IH]; intros acc; cbn.
  - rewrite app_nil_r. reflexivity.
  - rewrite IH, <- app_assoc. reflexivity.
Qed.

Section Building.

Context `{Externals}.

(** X10: the arguments of the build command are [build], then [-f file]
    when a file is given, then [-t tag] when a tag is given, then the source,
    then every option in the order given, each with [--] in front. *)
Theorem buildArgs_layout (src file tag : string) (opts : list string) :
  buildArgs src file tag opts =
    ["build"]
    ++ (if String.eqb file "" then [] else ["-f"; file])
    ++ (if String.eqb tag "" then [] else ["-t"; tag])
    ++ [src]
    ++ map (fun opt => "--" +:+ opt) opts.
Proof.
  unfold buildArgs. rewrite fold_left_snoc_map.
  destruct (String.eqb file ""), (String.eqb tag ""); reflexivity.
Qed.

(** X11: [BuildImage] runs the build first, with the process environment
    followed by the given variables; a failed build is returned wrapped and
    nothing is pushed; after a successful build the tag is pushed exactly
    when a tag is given and a push is asked for, and then the outcome of the
    push, wrapped on failure, is the result. *)
Theorem BuildImage_push_after_build (r : Docker) (src file tag : string)
    (push : bool) (env opts : list string) t res :
  exec (BuildImage r src file tag push env opts) t res ->
  let build :=
    {| Path := "docker"; Args := "docker" :: buildArgs src file tag opts;
       CmdEnv := os_Environ ++ env; Attached := true |} in
  let pushTag :=
    {| Path := "docker"; Args := ["docker"; "push"; tag];
       CmdEnv := []; Attached := true |} in
  exists rr err rest,
    t = (RunCmd build ↦ (rr, err)) :: rest /\
    (forall e, err = Some e ->
       rest = [] /\ res = Some (ErrWrap e "buildimage docker")) /\
    (err = None -> tag = "" \/ push = false -> rest = [] /\ res = None) /\
    (err = None -> tag <> "" -> push = true ->
       exists rr' err',
         rest = [RunCmd pushTag ↦ (rr', err')] /\
         res = (fun e => ErrWrap e "pushimage docker") <$> err').
Proof.
  intros Hx. unfold BuildImage in Hx. cbn [exec.Command Path Args CmdEnv] in Hx.
  cbv zeta.
  exec_all Hx;
    repeat match goal with
    | x : (RunResult * error)%type |- _ => destruct x
    end; cbn [fst snd] in *; subst.
  all: do 3 eexists; split; [reflexivity |].
  - split; [intros e' He; injection He as <-; split; reflexivity |].
    split; intros; discriminate.
  - apply andb_prop in E0 as [Ht Hp]. subst push.
    apply negb_true_iff, String.eqb_neq in Ht.
    split; [intros e' He; discriminate He |].
    split; [intros _ [Hc | Hc]; [congruence | discriminate Hc] |].
    intros _ _ _. do 2 eexists. split; reflexivity.
  - apply andb_prop in E0 as [Ht Hp]. subst push.
    apply negb_true_iff, String.eqb_neq in Ht.
    split; [intros e' He; discriminate He |].
    split; [intros _ [Hc | Hc]; [congruence | discriminate Hc] |].
    intros _ _ _. do 2 eexists. split; reflexivity.
  - split; [intros e' He; discriminate He |].
    split; [intros _ _; split; reflexivity |].
    intros _ Ht Hp. subst push. apply String.eqb_neq in Ht.
    rewrite Ht in E0. discriminate E0.
Qed.

End Building.

Lemma BuildImage_push_after_build_witness :
  let out := run (hostRunning failing)
               (BuildImage (H := rowExternals) nativeDocker "." "" "app:dev" true
                  ["DOCKER_BUILDKIT=1"] ["no-cache"]) tt in
  exists rr err rest,
    trace out =
      (RunCmd {| Path := "docker";
                 Args := "docker" :: buildArgs "." "" "app:dev" ["no-cache"];
                 CmdEnv := os_Environ (Externals := rowExternals) ++ ["DOCKER_BUILDKIT=1"];
                 Attached := true |} ↦ (rr, err)) :: rest /\
    (forall e, err = Some e ->
       rest = [] /\ result out = Some (ErrWrap e "buildimage docker")).
Proof.
  cbv zeta.
  destruct (BuildImage_push_after_build (H := rowExternals) nativeDocker
              "." "" "app:dev" true ["DOCKER_BUILDKIT=1"] ["no-cache"] _ _
              (run_exec (hostRunning failing)
                 (BuildImage (H := rowExternals) nativeDocker "." "" "app:dev" true
                    ["DOCKER_BUILDKIT=1"] ["no-cache"]) tt))
    as (rr & err & rest & Ht & Hfail & _).
  exists rr, err, rest. split; [exact Ht | exact Hfail].
Defined.

(** ** Log commands *)

(** X12: on the native path [ContainerLogCmd] makes no call; the command is
    [docker logs], then [--tail n] when [n] is positive, then [--follow]
    when asked for, then the container ID.  A line count of zero or below
    means no [--tail] at all. *)
Theorem ContainerLogCmd_native (r : Docker) (id : string) (len : Z) (follow : bool) t res :
  UseCRI r = false ->
  exec (ContainerLogCmd r id len follow) t res ->
  t = [] /\
  res = "docker logs "
        +:+ (if (0 <? len)%Z then "--tail " +:+ itoa len +:+ " " else "")
        +:+ (if follow then "--follow " else "")
        +:+ id /\
  ((len <= 0)%Z -> res = "docker logs " +:+ (if follow then "--follow " else "") +:+ id).
Proof.
  intros HC Hx. unfold ContainerLogCmd in Hx. rewrite HC in Hx.
  apply exec_Ret_inv in Hx as [-> ->].
  split; [reflexivity |].
  assert (Heq :
    (let cmd := "docker logs " in
     let cmd := if (0 <? len)%Z then cmd +:+ "--tail " +:+ itoa len +:+ " " else cmd in
     let cmd := if follow then cmd +:+ "--follow " else cmd in
     cmd +:+ id)
    = "docker logs "
      +:+ (if (0 <? len)%Z then "--tail " +:+ itoa len +:+ " " else "")
      +:+ (if follow then "--follow " else "")
      +:+ id).
  { cbv zeta. destruct (0 <? len)%Z, follow;
      rewrite ?append_assoc; reflexivity. }
  split; [exact Heq |].
  intros Hle. etransitivity; [exact Heq |].
  assert (Hlt : (0 <? len)%Z = false) by (apply Z.ltb_ge; exact Hle).
  rewrite Hlt. reflexivity.
Qed.

Lemma ContainerLogCmd_native_witness :
  UseCRI nativeDocker = false /\ (-1 <= 0)%Z /\
  result (run healthyHost (ContainerLogCmd nativeDocker "3f1a" (-1) true) tt)
    = "docker logs --follow 3f1a".
Proof.
  split; [reflexivity |]. split; [lia |].
  apply (proj2 (proj2 (ContainerLogCmd_native nativeDocker "3f1a" (-1) true _ _
                         eq_refl
                         (run_exec healthyHost
                            (ContainerLogCmd nativeDocker "3f1a" (-1) true) tt)))).
  lia.
Defined.

(** ** Lines of output *)

Lemma prefix_char (c a : ascii) (s : string) :
  String.prefix (String c "") (String a s) = Ascii.eqb a c.
Proof.
  change (String.prefix (String c "") (String a s))
    with (if ascii_dec c a then String.prefix "" s else false).
  destruct (ascii_dec c a) as [<- | Hne].
  - rewrite Ascii.eqb_refl. destruct s; reflexivity.
  - symmetry. apply Ascii.eqb_neq. congruence.
Qed.

(** Cutting at a character: the text before its first occurrence and the
    text after it, or nothing when it does not occur. *)
Lemma Cut_char (c : ascii) (s : string) :
  match strings.Cut s (String c "") with
  | Some (a, b) => s = a +:+ String c b /\ a = before c s
  | None => before c s = s
  end.
Proof.
  induction s as [| a s IH].
  - reflexivity.
  - cbn [strings.Cut before]. rewrite prefix_char.
    destruct (Ascii.eqb a c) eqn:Ea.
    + apply Ascii.eqb_eq in Ea as ->. split; reflexivity.
    + destruct (strings.Cut s (String c "")) as [[x y] |].
      * destruct IH as [Hs Hx]. split; [rewrite Hs at 1 | rewrite Hx]; reflexivity.
      * rewrite IH. reflexivity.
Qed.

Lemma Split_first (c : ascii) (s : string) :
  nth 0 (strings.Split s (String c "")) "" = before c s.
Proof.
  unfold strings.Split, strings.SplitN. cbn [Z.eqb Z.ltb Z.compare].
  destruct s as [| a s]; [reflexivity |].
  cbn [String.length strings.genSplit].
  pose proof (Cut_char c (String a s)) as HC.
  destruct (strings.Cut (String a s) (String c "")) as [[x y] |].
  - destruct HC as [_ Hx]. cbn [nth]. exact Hx.
  - cbn [nth]. symmetry. exact HC.
Qed.

Lemma before_occurs (c : ascii) (s : string) : occurs c (before c s) = false.
Proof.
  induction s as [| a s IH]; [reflexivity |].
  cbn [before]. destruct (Ascii.eqb a c) eqn:Ea; [reflexivity |].
  cbn [occurs]. rewrite Ea, IH. reflexivity.
Qed.

Lemma before_prefix (c : ascii) (s : string) : exists rest, s = before c s +:+ rest.
Proof.
  induction s as [| a s [rest IH]].
  - exists "". reflexivity.
  - cbn [before]. destruct (Ascii.eqb a c).
    + exists (String a s). reflexivity.
    + exists rest. rewrite append_cons, <- IH. reflexivity.
Qed.

(** X13: [Version] and [CGroupDriver] each run one command; when it fails
    they return the empty string and the command's error as it is; when it
    succeeds they return the output up to its first line feed, which is a
    prefix of the output and holds no line feed (the empty string for an
    empty output). *)
Theorem Version_first_line (r : Docker) :
  (forall t res, exec (Version r) t res ->
     exists rr err,
       t = [RunCmd (exec.Command "docker"
                      ["version"; "--format"; "{{.Server.Version}}"]) ↦ (rr, err)] /\
       (forall e, err = Some e -> res = ("", Some e)) /\
       (err = None ->
        res = (before LFchar (Stdout rr), None) /\
        occurs LFchar (fst res) = false /\
        exists rest, Stdout rr = fst res +:+ rest)) /\
  (forall t res, exec (CGroupDriver r) t res ->
     exists rr err,
       t = [RunCmd (exec.Command "docker"
                      ["info"; "--format"; "{{.CgroupDriver}}"]) ↦ (rr, err)] /\
       (forall e, err = Some e -> res = ("", Some e)) /\
       (err = None ->
        res = (before LFchar (Stdout rr), None) /\
        occurs LFchar (fst res) = false /\
        exists rest, Stdout rr = fst res +:+ rest)).
Proof.
  split; intros t res Hx; [unfold Version in Hx | unfold CGroupDriver in Hx].
  all: exec_all Hx; do 2 eexists; (split; [reflexivity |]).
  all: split; [intros e' He; try discriminate He; try (injection He as <-); reflexivity |].
  all: intros He; try discriminate He.
  all: change LF with (String LFchar "") in *; rewrite Split_first; cbn [fst].
  all: split; [reflexivity |]; split; [apply before_occurs | apply before_prefix].
Qed.

Lemma Version_first_line_witness :
  let out := run (hostRunning (printing ("20.10.17" +:+ LF))) (Version nativeDocker) tt in
  exists rr err,
    trace out = [RunCmd (exec.Command "docker"
                           ["version"; "--format"; "{{.Server.Version}}"]) ↦ (rr, err)] /\
    (err = None ->
     result out = (before LFchar (Stdout rr), None) /\
     occurs LFchar (fst (result out)) = false /\
     exists rest, Stdout rr = fst (result out) +:+ rest).
Proof.
  cbv zeta.
  destruct (proj1 (Version_first_line nativeDocker) _ _
              (run_exec (hostRunning (printing ("20.10.17" +:+ LF)))
                 (Version nativeDocker) tt))
    as (rr & err & Ht & _ & Hok).
  exists rr, err. split; [exact Ht | exact Hok].
Defined.

(** ** Listing containers and images *)

(** X14: on the native path [ListContainers] runs the one command
    [docker ps] with the arguments of [listContainersArgs]; a failure is
    returned wrapped, with no ID; on success the IDs are exactly the
    non-empty lines of the output, in their order and with their repeats:
    no ID is empty and no non-empty line is lost. *)
Theorem ListContainers_native (r : Docker) (o : ListContainersOptions) t res :
  UseCRI r = false ->
  exec (ListContainers r o) t res ->
  exists rr err,
    t = [RunCmd (exec.Command "docker" (listContainersArgs o)) ↦ (rr, err)] /\
    (forall e, err = Some e -> res = ([], Some (ErrWrap e "docker"))) /\
    (err = None ->
     snd res = None /\
     fst res = filter (fun line => line <> "") (strings.Split (Stdout rr) LF) /\
     ("" ∉ fst res) /\
     fst res `sublist_of` strings.Split (Stdout rr) LF /\
     (forall line, line ∈ strings.Split (Stdout rr) LF -> line <> "" ->
        line ∈ fst res)).
Proof.
  intros HC Hx. unfold ListContainers in Hx. rewrite HC in Hx.
  exec_all Hx; do 2 eexists; (split; [reflexivity |]).
  - split; [intros e' He; injection He as <-; reflexivity | discriminate].
  - split; [discriminate |]. intros _. cbn [fst snd].
    split; [reflexivity |]. split; [| split; [| split]].
    + apply list_filter_iff. intros line.
      destruct (String.eqb_spec line "") as [-> | Hne]; cbn; [tauto |].
      split; [intros _; exact Hne | intros _; exact I].
    + intros Hin. apply list_elem_of_filter in Hin as [Hne _]. exact Hne.
    + apply sublist_filter.
    + intros line Hin Hne. apply list_elem_of_filter. split; [| exact Hin].
      apply String.eqb_neq in Hne. rewrite Hne. exact I.
Qed.

Lemma ListContainers_native_witness :
  let out := run (hostRunning (printing ("3f1a" +:+ LF +:+ "9c2e" +:+ LF +:+ "3f1a" +:+ LF)))
               (ListContainers nativeDocker
                  {| State := Running; Name := ""; Namespaces := ["kube-system"] |}) tt in
  UseCRI nativeDocker = false /\
  result out = (["3f1a"; "9c2e"; "3f1a"], None) /\
  exists rr err,
    trace out =
      [RunCmd (exec.Command "docker"
                 (listContainersArgs
                    {| State := Running; Name := ""; Namespaces := ["kube-system"] |}))
         ↦ (rr, err)] /\
    (err = None ->
     snd (result out) = None /\
     fst (result out) = filter (fun line => line <> "") (strings.Split (Stdout rr) LF) /\
     ("" ∉ fst (result out))).
Proof.
  cbv zeta. split; [reflexivity |]. split; [vm_compute; reflexivity |].
  destruct (ListContainers_native nativeDocker
              {| State := Running; Name := ""; Namespaces := ["kube-system"] |} _ _
              eq_refl
              (run_exec (hostRunning
                           (printing ("3f1a" +:+ LF +:+ "9c2e" +:+ LF +:+ "3f1a" +:+ LF)))
                 (ListContainers nativeDocker
                    {| State := Running; Name := ""; Namespaces := ["kube-system"] |}) tt))
    as (rr & err & Ht & _ & Hok).
  exists rr, err. split; [exact Ht |].
  intros He. destruct (Hok He) as (H1 & H2 & H3 & _). split; [| split]; assumption.
Defined.

Section Listing.

Context `{Externals}.

(** The loop over the rows: it fails as a whole or decodes every non-empty
    line into one record appended to the accumulator. *)
Lemma listImagesRows_spec (images : list string) (acc : list ListImage) :
  (snd (listImagesRows images acc) <> None -> fst (listImagesRows images acc) = []) /\
  (snd (listImagesRows images acc) = None ->
   (forall line, line ∈ images -> line <> "" -> decodes line) /\
   exists new,
     fst (listImagesRows images acc) = acc ++ new /\
     length new = length (filter (fun line => line <> "") images) /\
     Forall listed new) /\
  ((forall line, line ∈ images -> line <> "" -> decodes line) ->
   snd (listImagesRows images acc) = None).
Proof.
  revert acc. induction images as [| img images IH]; intros acc.
  - cbn. split; [congruence |]. split; [| reflexivity].
    intros _. split; [intros line Hin; inversion Hin |].
    exists []. rewrite app_nil_r. repeat split. constructor.
  - cbn [listImagesRows].
    destruct (String.eqb_spec img "") as [-> | Hne].
    + destruct (IH acc) as (IH1 & IH2 & IH3).
      split; [exact IH1 |]. split.
      * intros Hok. destruct (IH2 Hok) as (Hdec & new & Hf & Hl & Hall).
        split.
        -- intros line Hin Hline. apply elem_of_cons in Hin as [-> | Hin];
             [congruence | apply Hdec; assumption].
        -- exists new. rewrite filter_cons_False by congruence. auto.
      * intros Hdec. apply IH3. intros line Hin. apply Hdec. right. exact Hin.
    + unfold decodes in *.
      destruct (json_Unmarshal img) as [jsonImage [e1 |]] eqn:Ej.
      { cbn [fst snd]. split; [reflexivity |]. split; [discriminate |].
        intros Hdec. destruct (Hdec img) as [Hd _]; [left | exact Hne |].
        rewrite Ej in Hd. discriminate Hd. }
      destruct (FromHumanSize (jsonSize jsonImage)) as [size [e2 |]] eqn:Es.
      { cbn [fst snd]. split; [reflexivity |]. split; [discriminate |].
        intros Hdec. destruct (Hdec img) as [_ Hd]; [left | exact Hne |].
        rewrite Ej in Hd. cbn [fst] in Hd. rewrite Es in Hd. discriminate Hd. }
      match goal with
      | |- context [listImagesRows images ?acc'] =>
          destruct (IH acc') as (IH1 & IH2 & IH3)
      end.
      split; [exact IH1 |]. split.
      * intros Hok. destruct (IH2 Hok) as (Hdec & new & Hf & Hl & Hall).
        split.
        -- intros line Hin Hline. apply elem_of_cons in Hin as [-> | Hin].
           ++ rewrite Ej. cbn [fst snd]. rewrite Es. split; reflexivity.
           ++ apply Hdec; assumption.
        -- eexists (_ :: new). rewrite Hf, <- app_assoc.
           split; [reflexivity |].
           rewrite filter_cons_True by exact Hne. cbn [length]. rewrite Hl.
           split; [reflexivity |].
           constructor; [| exact Hall].
           split; [reflexivity |]. eexists. split; [reflexivity |].
           apply addDockerIO_idempotent.
      * intros Hdec. apply IH3. intros line Hin. apply Hdec. right. exact Hin.
Qed.

(** X15: [ListImages] is all or nothing.  It runs one command, whose
    failure is returned wrapped; it then succeeds exactly when every
    non-empty line of the output decodes, row and size; and whenever it
    returns an error it returns no image at all. *)
Theorem ListImages_all_or_nothing (r : Docker) (o : ListImagesOptions) t res :
  exec (ListImages r o) t res ->
  exists rr err,
    t = [RunCmd (exec.Command "docker"
                   ["images"; "--no-trunc"; "--format"; "{{json .}}"]) ↦ (rr, err)] /\
    (forall e, err = Some e -> res = ([], Some (ErrWrap e "docker images"))) /\
    (snd res <> None -> fst res = []) /\
    (err = None ->
     (snd res = None <->
      forall line, line ∈ strings.Split (Stdout rr) LF -> line <> "" -> decodes line)).
Proof.
  intros Hx. unfold ListImages in Hx.
  exec_all Hx; do 2 eexists; (split; [reflexivity |]).
  - split; [intros e' He; injection He as <-; reflexivity |].
    split; [reflexivity | discriminate].
  - destruct (listImagesRows_spec (strings.Split (Stdout r0) LF) []) as (H1 & H2 & H3).
    split; [discriminate |]. split; [exact H1 |].
    intros _. split; [intros Hok; apply (H2 Hok) | exact H3].
Qed.

(** X16: when [ListImages] succeeds it returns one record per non-empty
    line of the output, and every record has no digest and exactly one tag,
    which is registry-qualified ([addDockerIO] leaves it unchanged). *)
Theorem ListImages_records (r : Docker) (o : ListImagesOptions) t res :
  exec (ListImages r o) t res ->
  snd res = None ->
  exists rr,
    t = [RunCmd (exec.Command "docker"
                   ["images"; "--no-trunc"; "--format"; "{{json .}}"]) ↦ (rr, None)] /\
    length (fst res)
      = length (filter (fun line => line <> "") (strings.Split (Stdout rr) LF)) /\
    Forall listed (fst res).
Proof.
  intros Hx Hok. unfold ListImages in Hx.
  exec_all Hx; [discriminate Hok |].
  eexists. split; [reflexivity |].
  destruct (listImagesRows_spec (strings.Split (Stdout r0) LF) []) as (_ & H2 & _).
  destruct (H2 Hok) as (_ & new & Hf & Hl & Hall).
  rewrite Hf. cbn [app]. split; assumption.
Qed.

(** X17: [ImageExists] runs one inspect command and says yes exactly when
    it succeeds and, if a digest is given, its output contains the digest;
    with no digest the command's success alone decides. *)
Theorem ImageExists_decides (r : Docker) (name sha : string) t res :
  exec (ImageExists r name sha) t res ->
  exists rr err,
    t = [RunCmd (imageInspectCmd name) ↦ (rr, err)] /\
    (res = true <->
     err = None /\ (sha = "" \/ strings.Contains (Output rr) sha = true)).
Proof.
  intros Hx. unfold ImageExists in Hx.
  exec_all Hx.
  all: do 2 eexists; (split; [reflexivity |]).
  - split; [discriminate | intros [He _]; discriminate He].
  - match goal with Hb : (_ && _) = true |- _ =>
      apply andb_prop in Hb; destruct Hb as [Hs Hc] end.
    apply negb_true_iff in Hs, Hc. apply String.eqb_neq in Hs.
    split; [discriminate |]. intros [_ [He | He]]; congruence.
  - split; [| reflexivity]. intros _. split; [reflexivity |].
    match goal with Hb : (_ && _) = false |- _ =>
      apply andb_false_iff in Hb; destruct Hb as [Hs | Hc] end.
    + left. apply negb_false_iff, String.eqb_eq in Hs. exact Hs.
    + right. apply negb_false_iff in Hc. exact Hc.
Qed.

End Listing.

Lemma ListImages_all_or_nothing_witness :
  let out := run (hostRunning (printing (exampleRow +:+ LF +:+ "{broken" +:+ LF)))
               (ListImages (H := rowExternals) nativeDocker noOptions) tt in
  snd (result out) <> None /\ fst (result out) = [].
Proof.
  cbv zeta.
  destruct (ListImages_all_or_nothing (H := rowExternals) nativeDocker noOptions _ _
              (run_exec (hostRunning (printing (exampleRow +:+ LF +:+ "{broken" +:+ LF)))
                 (ListImages (H := rowExternals) nativeDocker noOptions) tt))
    as (rr & err & _ & _ & Hnone & _).
  assert (Hne : snd (result (run (hostRunning
                   (printing (exampleRow +:+ LF +:+ "{broken" +:+ LF)))
                   (ListImages (H := rowExternals) nativeDocker noOptions) tt)) <> None)
    by (vm_compute; discriminate).
  split; [exact Hne | exact (Hnone Hne)].
Defined.

Lemma ListImages_records_witness :
  let out := run (hostRunning (printing (exampleRow +:+ LF)))
               (ListImages (H := rowExternals) nativeDocker noOptions) tt in
  snd (result out) = None /\
  fst (result out)
    = [{| ID := "0a1b"; RepoDigests := [];
          RepoTags := ["docker.io/library/nginx:1.21"]; Size := "142000000" |}] /\
  Forall listed (fst (result out)).
Proof.
  cbv zeta.
  split; [vm_compute; reflexivity |]. split; [vm_compute; reflexivity |].
  destruct (ListImages_records (H := rowExternals) nativeDocker noOptions _ _
              (run_exec (hostRunning (printing (exampleRow +:+ LF)))
                 (ListImages (H := rowExternals) nativeDocker noOptions) tt))
    as (rr & _ & _ & Hall).
  - vm_compute. reflexivity.
  - exact Hall.
Defined.

Lemma ImageExists_decides_witness :
  let out := run (hostRunning (printing ("sha256:0a1b" +:+ LF)))
               (ImageExists (H := rowExternals) nativeDocker "nginx:1.21" "0a1b") tt in
  exists rr err,
    trace out = [RunCmd (imageInspectCmd "nginx:1.21") ↦ (rr, err)] /\
    (result out = true <->
     err = None /\
     ("0a1b" = "" \/ strings.Contains (Output (Externals := rowExternals) rr) "0a1b" = true)).
Proof.
  cbv zeta.
  apply (ImageExists_decides (H := rowExternals) nativeDocker "nginx:1.21" "0a1b").
  apply run_exec.
Defined.

(** ** The unit file of the docker service *)

Lemma Contains_cons_other (a : ascii) (s p : string) :
  Ascii.eqb a LFchar = false ->
  strings.Contains (String a s) (String LFchar p) = strings.Contains s (String LFchar p).
Proof.
  intros Ha. cbn [strings.Contains].
  change (String.prefix (String LFchar p) (String a s))
    with (if ascii_dec LFchar a then String.prefix p s else false).
  destruct (ascii_dec LFchar a) as [<- | _]; [| reflexivity].
  rewrite Ascii.eqb_refl in Ha. discriminate Ha.
Qed.

(** X18: [dockerBoundToContainerd] runs [systemctl cat docker.service] and
    says no when it fails.  When it succeeds it says yes as soon as
    [BindsTo=containerd] stands right after a line feed somewhere in the
    unit file; a directive on the very first line, with no line feed before
    it, does not count by itself. *)
Theorem dockerBoundToContainerd_lines t res :
  exec dockerBoundToContainerd t res ->
  exists rr err,
    t = [RunCmd systemctlCatDocker ↦ (rr, err)] /\
    (err <> None -> res = false) /\
    (err = None ->
     (forall a b, Stdout rr = a +:+ LF +:+ "BindsTo=containerd" +:+ b -> res = true) /\
     (forall b, Stdout rr = "BindsTo=containerd" +:+ b ->
        strings.Contains b (LF +:+ "BindsTo=containerd") = false -> res = false)).
Proof.
  intros Hx. unfold dockerBoundToContainerd in Hx.
  exec_all Hx.
  all: do 2 eexists; (split; [reflexivity |]).
  all: split; [intros He; try reflexivity; congruence |].
  all: intros He; try discriminate He.
  - split; [reflexivity |]. intros b Hb Hno.
    match goal with Hc : strings.Contains _ _ = true |- _ => rewrite Hb in Hc end.
    change (LF +:+ "BindsTo=containerd")
      with (String LFchar "BindsTo=containerd") in *.
    repeat (rewrite append_cons in *;
            rewrite Contains_cons_other in * by reflexivity).
    rewrite append_nil_l in *. congruence.
  - split; [| reflexivity]. intros a b Hab.
    pose proof (Contains_middle a (LF +:+ "BindsTo=containerd") b) as Hm.
    change (a +:+ (LF +:+ "BindsTo=containerd") +:+ b)
      with (a +:+ LF +:+ "BindsTo=containerd" +:+ b) in Hm.
    rewrite <- Hab in Hm. congruence.
Qed.

Lemma dockerBoundToContainerd_lines_witness :
  let unit := "[Unit]" +:+ LF +:+ "BindsTo=containerd.service" +:+ LF in
  let out := run (hostRunning (printing unit)) dockerBoundToContainerd tt in
  result out = true.
Proof.
  cbv zeta.
  destruct (dockerBoundToContainerd_lines _ _
              (run_exec (hostRunning
                 (printing ("[Unit]" +:+ LF +:+ "BindsTo=containerd.service" +:+ LF)))
                 dockerBoundToContainerd tt))
    as (rr & err & Ht & _ & Hok).
  apply cons_eq_inv in Ht as [Ht _]. apply answered_inj in Ht.
  apply pair_equal_spec in Ht as [<- <-].
  apply (proj1 (Hok eq_refl) "[Unit]" (".service" +:+ LF)).
  reflexivity.
Defined.

(** ** More on preloading *)

Section PreloadOutcomes.

Context `{Externals}.

Ltac unfold_preload Hx :=
  unfold Preload, dockerImagesPreloaded, Restart in Hx;
  change (path.Join ["/"; "preloaded.tar.lz4"]) with preloadDest in Hx.

Ltac calls_differ :=
  repeat constructor; cbv; discriminate.

(** X19: [Preload] first asks whether a bundle applies and, when none does,
    returns success at once; otherwise it asks for the image list, and a
    failure there is returned wrapped.  In both cases nothing has been run
    on the host. *)
Theorem Preload_without_bundle (r : Docker) (cc : config.ClusterConfig) t res :
  exec (Preload r cc) t res ->
  exists applies t',
    t = (bundleLookup cc ↦ applies) :: t' /\
    (applies = false -> t' = [] /\ res = None) /\
    (applies = true ->
     exists images kerr t'',
       t' = (imageList cc ↦ (images, kerr)) :: t'' /\
       (forall e, kerr = Some e ->
          t'' = [] /\ res = Some (ErrWrap e "getting images"))).
Proof.
  intros Hx. unfold_preload Hx. unfold bundleLookup, imageList.
  exec_all Hx.
  all: do 2 eexists; (split; [reflexivity |]).
  all: match goal with
       | E : negb ?b = _ |- _ => destruct b; cbn [negb] in E; try discriminate E
       end.
  all: split; [intros Hb; try discriminate Hb; try (split; reflexivity) |].
  all: intros Hb; try discriminate Hb.
  all: do 3 eexists; (split; [reflexivity |]).
  all: intros e' He; try discriminate He; injection He as <-; split; reflexivity.
Qed.

(** X20: once the tarball has been opened, [Preload] closes it as its very
    last call and only then, whatever happens in between; when the tarball
    was never opened, nothing is closed and nothing is copied. *)
Theorem Preload_closes_tarball (r : Docker) (cc : config.ClusterConfig) t res :
  exec (Preload r cc) t res ->
  ((openTarball cc ↦ None) ∈ t ->
   exists pre x,
     t = pre ++ [AssetClose (tarball cc) ↦ x] /\
     Forall (fun c => c <> AssetClose (tarball cc)) (calls pre)) /\
  ((openTarball cc ↦ None) ∉ t ->
   Forall (fun c => c <> AssetClose (tarball cc) /\ is_Copy c = false) (calls t)).
Proof.
  intros Hx. unfold_preload Hx. unfold openTarball, tarball, tarballSource.
  exec_all Hx.
  all: split; [intros Hin; trace_inv; try discriminate |].
  all: try (intros _; repeat constructor; cbv; discriminate).
  all: try (intros Hn; exfalso; apply Hn; repeat constructor).
  all: match goal with
       | |- exists pre x, ?l = _ /\ _ =>
           exists (removelast l); eexists; split; [reflexivity |]
       end.
  all: cbn; repeat constructor; cbv; discriminate.
Qed.

(** X21: when [Preload] succeeds, either no bundle applies, or the images
    were found present and the listing was the only command run, or the
    tarball was copied, extracted and the runtime restarted, all three with
    success.  The runtime is restarted, and the tarball removed from the
    host, only after a successful extraction. *)
Theorem Preload_success (r : Docker) (cc : config.ClusterConfig) t res :
  exec (Preload r cc) t res ->
  (res = None ->
   (bundleLookup cc ↦ false) ∈ t \/
   (exists images x,
      (imageList cc ↦ (images, None)) ∈ t /\ (RunCmd dockerImagesCmd ↦ x) ∈ t /\
      imagesPreloadedIn x images = true /\ commands t = [dockerImagesCmd]) \/
   ((Copy (tarball cc) ↦ None) ∈ t /\
    (exists rr, (RunCmd (extractCmd preloadDest) ↦ (rr, None)) ∈ t) /\
    (Init sysinit.Restart "docker" ↦ None) ∈ t /\
    commands t = [dockerImagesCmd; whichLz4; extractCmd preloadDest])) /\
  (Init sysinit.Restart "docker" ∈ calls t \/ Remove (tarball cc) ∈ calls t ->
   exists rr, (RunCmd (extractCmd preloadDest) ↦ (rr, None)) ∈ t).
Proof.
  intros Hx. unfold_preload Hx.
  unfold bundleLookup, imageList, tarball, tarballSource, imagesPreloadedIn.
  exec_all Hx.
  all: match goal with
       | E : negb ?b = _ |- _ => destruct b; cbn [negb] in E; try discriminate E
       end.
  all: split;
    [ intros Hr; try discriminate Hr
    | intros [Hin | Hin]; cbn in Hin; trace_inv; try discriminate;
      eexists; repeat constructor ].
  all: subst; first
    [ solve [left; repeat constructor]
    | solve [right; left; do 2 eexists;
             split; [repeat constructor |]; split; [repeat constructor |];
             cbn [fst snd]; split; [assumption | reflexivity]]
    | solve [right; right;
             split; [repeat constructor |]; split; [eexists; repeat constructor |];
             split; [repeat constructor | reflexivity]] ].
Qed.

(** X22: the fatal steps of the extraction.  A tarball that cannot be
    opened, a failed copy and a failed extraction each end [Preload] with
    the error wrapped under its own label; after a failed copy no extraction
    is run; after a failed extraction the tarball is not removed from the
    host and the runtime is not restarted; and when the restart is reached
    its outcome is the result. *)
Theorem Preload_fatal_steps (r : Docker) (cc : config.ClusterConfig) t res :
  exec (Preload r cc) t res ->
  (forall e, (openTarball cc ↦ Some e) ∈ t ->
     res = Some (ErrWrap e "getting file asset") /\
     Forall (fun c => is_Copy c = false) (calls t)) /\
  (forall e, (Copy (tarball cc) ↦ Some e) ∈ t ->
     res = Some (ErrWrap e "copying file") /\
     extractCmd preloadDest ∉ commands t) /\
  (forall rr e, (RunCmd (extractCmd preloadDest) ↦ (rr, Some e)) ∈ t ->
     res = Some (ErrWrap e ("extracting tarball: " +:+ Output rr)) /\
     Forall (fun c => c <> Remove (tarball cc) /\ c <> Init sysinit.Restart "docker")
       (calls t)) /\
  (forall x, (Init sysinit.Restart "docker" ↦ x) ∈ t -> res = x).
Proof.
  intros Hx. unfold_preload Hx. unfold openTarball, tarball, tarballSource.
  exec_all Hx.
  all: split; [intros e' Hin; trace_inv; subst; try discriminate;
               try (match goal with Hs : Some _ = Some _ |- _ => injection Hs as -> end);
               (split; [reflexivity | repeat constructor]) |].
  all: split; [intros e' Hin; trace_inv; subst; try discriminate;
               try (match goal with Hs : Some _ = Some _ |- _ => injection Hs as -> end);
               (split; [reflexivity |]);
               (let Hc := fresh "Hc" in
                intros Hc; cbn in Hc;
                repeat (apply elem_of_cons in Hc as [Hc | Hc];
                        [cbv in Hc; discriminate Hc |]);
                apply elem_of_nil in Hc; exact Hc) |].
  all: split; [intros rr' e' Hin; trace_inv; subst; try discriminate;
               repeat match goal with
                 | Hp : (_, _) = (_, _) |- _ =>
                     apply pair_equal_spec in Hp; destruct Hp as [? ?]; subst
                 end;
               try discriminate;
               try (match goal with Hs : Some _ = Some _ |- _ => injection Hs as -> end);
               (split; [reflexivity |]);
               cbn; repeat constructor; cbv; discriminate |].
  all: intros x' Hin; trace_inv; subst; try discriminate; reflexivity.
Qed.

(** X23: the best-effort calls of [Preload] (saving and updating the
    reference store, removing the tarball, closing it) never change what
    [Preload] does: with the same answers to all other calls, and any
    answers to these, it makes the same calls and returns the same result. *)
Theorem Preload_best_effort (r : Docker) (cc : config.ClusterConfig) t t' res :
  exec (Preload r cc) t res ->
  Forall2 agree t t' ->
  exec (Preload r cc) t' res.
Proof.
  intros Hx Hag. unfold_preload Hx.
  exec_all Hx.
  all: repeat match goal with
       | Hf : Forall2 _ (_ :: _) _ |- _ =>
           let j := fresh "j" in
           let Hj := fresh "Hj" in
           let Hc := fresh "Hc" in
           let Hsame := fresh "Hsame" in
           apply Forall2_cons_inv_l in Hf as (j & ? & Hj & Hf & ->);
           destruct Hj as [Hc Hsame]; cbn in Hc, Hsame;
           first [ specialize (Hsame eq_refl); subst j; clear Hc
                 | let c' := fresh "c" in
                   let y := fresh "y" in
                   destruct j as [c' y]; cbn in Hc; subst c'; cbn [Resp] in y;
                   clear Hsame ]
       | Hf : Forall2 _ [] _ |- _ => apply Forall2_nil_inv_l in Hf as ->
       end.
  all: unfold Preload, dockerImagesPreloaded, Restart;
    change (path.Join ["/"; "preloaded.tar.lz4"]) with preloadDest.
  all: repeat (unfold call; cbn [bind negb fst snd];
               repeat match goal with
               | E : ?e = _ |- context [?e] => rewrite E
               end;
               first [apply exec_Ret | apply (exec_Vis _ _ _)]).
Qed.

End PreloadOutcomes.

Lemma Preload_without_bundle_witness :
  let out := run hostNoBundle (Preload (H := exampleExternals) criDocker exampleConfig) tt in
  exists applies t',
    trace out = (bundleLookup exampleConfig ↦ applies) :: t' /\
    (applies = false -> t' = [] /\ result out = None).
Proof.
  cbv zeta.
  destruct (Preload_without_bundle (H := exampleExternals) criDocker exampleConfig _ _
              (run_exec hostNoBundle
                 (Preload (H := exampleExternals) criDocker exampleConfig) tt))
    as (applies & t' & Ht & Hno & _).
  exists applies, t'. split; [exact Ht | exact Hno].
Defined.

Lemma Preload_closes_tarball_witness :
  let out := run (brokenTarHost expectedAB presentA)
               (Preload (H := exampleExternals) criDocker exampleConfig) tt in
  (openTarball (H := exampleExternals) exampleConfig ↦ None) ∈ trace out /\
  exists pre x,
    trace out = pre ++ [AssetClose (tarball (H := exampleExternals) exampleConfig) ↦ x] /\
    Forall (fun c => c <> AssetClose (tarball (H := exampleExternals) exampleConfig))
      (calls pre).
Proof.
  cbv zeta.
  assert (Hin : (openTarball (H := exampleExternals) exampleConfig ↦ None)
                ∈ trace (run (brokenTarHost expectedAB presentA)
                           (Preload (H := exampleExternals) criDocker exampleConfig) tt))
    by (vm_compute; repeat constructor).
  split; [exact Hin |].
  apply (proj1 (Preload_closes_tarball (H := exampleExternals) criDocker exampleConfig
                  _ _ (run_exec (brokenTarHost expectedAB presentA)
                         (Preload (H := exampleExternals) criDocker exampleConfig) tt))).
  exact Hin.
Defined.

Lemma Preload_success_witness :
  let out := run (flakyHost expectedAB presentA)
               (Preload (H := exampleExternals) criDocker exampleConfig) tt in
  result out = None /\
  exists rr, (RunCmd (extractCmd preloadDest) ↦ (rr, None)) ∈ trace out.
Proof.
  cbv zeta.
  split; [vm_compute; reflexivity |].
  apply (proj2 (Preload_success (H := exampleExternals) criDocker exampleConfig
                  _ _ (run_exec (flakyHost expectedAB presentA)
                         (Preload (H := exampleExternals) criDocker exampleConfig) tt))).
  left. vm_compute. repeat constructor.
Defined.

Lemma Preload_fatal_steps_witness :
  let out := run (brokenTarHost expectedAB presentA)
               (Preload (H := exampleExternals) criDocker exampleConfig) tt in
  result out
    = Some (ErrWrap someErr ("extracting tarball: " +:+ "tar: short read")) /\
  Forall (fun c => c <> Remove (tarball (H := exampleExternals) exampleConfig) /\
                   c <> Init sysinit.Restart "docker")
    (calls (trace out)).
Proof.
  cbv zeta.
  apply (proj1 (proj2 (proj2 (Preload_fatal_steps (H := exampleExternals) criDocker
                                exampleConfig _ _
                                (run_exec (brokenTarHost expectedAB presentA)
                                   (Preload (H := exampleExternals) criDocker
                                      exampleConfig) tt))))
           {| Stdout := ""; Stderr := "tar: short read" |} someErr).
  vm_compute. repeat constructor.
Defined.

Lemma Preload_best_effort_witness :
  exec (Preload (H := exampleExternals) criDocker exampleConfig)
    (trace (run (flakyHost expectedAB presentA)
              (Preload (H := exampleExternals) criDocker exampleConfig) tt))
    (result (run (preloadHost expectedAB presentA true)
               (Preload (H := exampleExternals) criDocker exampleConfig) tt)).
Proof.
  apply (Preload_best_effort (H := exampleExternals) criDocker exampleConfig
           (trace (run (preloadHost expectedAB presentA true)
                     (Preload (H := exampleExternals) criDocker exampleConfig) tt))).
  - apply run_exec.
  - vm_compute.
    repeat (constructor;
            [split; [reflexivity | intros Hb; first [reflexivity | discriminate Hb]] |]).
    constructor.
Defined.

Section MoreProperties.

Context `{Externals}.

(** X24: the membership check is monotone in the expected images: with the
    same listing, a yes for a list is a yes for every list drawn from it,
    whatever the order and the repetitions; the empty list is found present
    exactly when the listing command succeeds; and a single image is found
    exactly when its trimmed name is the trimmed form of a listed line. *)
Theorem imagesPreloadedIn_monotone (answer : RunResult * error)
    (images images' : list string) :
  (imagesPreloadedIn answer images = true ->
   (forall i, i ∈ images' -> i ∈ images) ->
   imagesPreloadedIn answer images' = true) /\
  (imagesPreloadedIn answer [] = true <-> snd answer = None) /\
  (forall i, imagesPreloadedIn answer [i] = true <->
     snd answer = None /\
     exists line, line ∈ strings.Split (Stdout (fst answer)) LF /\
                  TrimDockerIO i = TrimDockerIO line).
Proof.
  destruct answer as [rr [e |]]; unfold imagesPreloadedIn; cbn [fst snd].
  - split; [discriminate |]. split; [split; discriminate |].
    intros i. split; [discriminate | intros [He _]; discriminate He].
  - split; [| split].
    + rewrite !allPreloaded_true. intros Hall Hsub i Hi. apply Hall, Hsub, Hi.
    + split; reflexivity.
    + intros i. rewrite allPreloaded_true. split.
      * intros Hall. split; [reflexivity |].
        apply collectPreloaded_elem, Hall. left.
      * intros [_ Hline] j Hj. apply elem_of_cons in Hj as [-> | Hj].
        -- apply collectPreloaded_elem, Hline.
        -- inversion Hj.
Qed.

Lemma append_nil_r (s : string) : s +:+ "" = s.
Proof. induction s as [| c s IH]; [reflexivity |]. rewrite append_cons, IH. reflexivity. Qed.

(** X25: for every non-empty plugin the configurator executes the
    template, creates the directory, copies the override and restarts
    [cri-docker], in that order and stopping at the first failure; it
    succeeds only when all four have; and for a plugin other than ["cni"] the
    override passes the plugin name and no further argument. *)
Theorem dockerConfigureNetworkPlugin_any_plugin (r : Docker) (plugin : string) t res :
  plugin <> "" ->
  exec (dockerConfigureNetworkPlugin r plugin) t res ->
  let opts := {| NetworkPlugin := plugin; ExtraArguments := cniArguments plugin |} in
  let override :=
    NewMemoryAssetTarget (CRIDockerServiceConfTemplate opts)
      CRIDockerServiceConfFile "0644" in
  let steps :=
    [TemplateExecute "criDockerServiceConfTemplate" opts; RunCmd mkdirOverrideDir;
     Copy override; Init sysinit.Restart "cri-docker"] in
  calls t `prefix_of` steps /\
  (res = None -> calls t = steps /\ no_failure t) /\
  (forall e, res = Some e ->
     exists pre i, t = pre ++ [i] /\ no_failure pre /\ failure i <> None) /\
  (plugin <> "cni" ->
   CRIDockerServiceConfTemplate opts =
     "[Service]" +:+ LF +:+ "ExecStart=" +:+ LF +:+
     "ExecStart=/usr/bin/cri-dockerd --container-runtime-endpoint fd:// --network-plugin="
     +:+ plugin).
Proof.
  intros Hne Hx. cbv zeta.
  split; [| split; [| split]].
  4: { intros Hcni. unfold CRIDockerServiceConfTemplate, cniArguments.
       cbn [NetworkPlugin ExtraArguments].
       apply String.eqb_neq in Hcni. rewrite Hcni, append_nil_r. reflexivity. }
  all: unfold dockerConfigureNetworkPlugin in Hx.
  all: apply String.eqb_neq in Hne; rewrite Hne in Hx.
  all: change (path.Dir CRIDockerServiceConfFile)
         with "/etc/systemd/system/cri-docker.service.d" in Hx.
  all: fold mkdirOverrideDir in Hx.
  all: exec_all Hx.
  all: repeat match goal with
       | x : (RunResult * error)%type |- _ => destruct x
       end; cbn [fst snd] in *; subst.
  all: try match goal with x : option Err |- _ => destruct x end.
  all: unfold no_failure.
  1-5: cbn; repeat first [apply prefix_cons | apply prefix_nil].
  1-5: intros Hr; first [discriminate Hr | split; [reflexivity | repeat constructor]].
  all: intros e' He; try discriminate He.
  all: match goal with
       | |- exists pre i, ?l = _ /\ _ =>
           exists (removelast l); eexists; split; [reflexivity |]
       end.
  all: split; [cbn; repeat constructor | cbn; discriminate].
Qed.

End MoreProperties.

Lemma imagesPreloadedIn_monotone_witness :
  imagesPreloadedIn (H := exampleExternals) (presentDockerIO, None) ["A"; "B"] = true /\
  imagesPreloadedIn (H := exampleExternals) (presentDockerIO, None) ["B"; "A"; "B"] = true.
Proof.
  assert (Hab : imagesPreloadedIn (H := exampleExternals) (presentDockerIO, None) ["A"; "B"]
                = true) by (vm_compute; reflexivity).
  split; [exact Hab |].
  apply (proj1 (imagesPreloadedIn_monotone (H := exampleExternals) (presentDockerIO, None)
                  ["A"; "B"] ["B"; "A"; "B"]) Hab).
  intros i Hi.
  repeat (apply elem_of_cons in Hi as [-> | Hi]; [repeat constructor |]).
  inversion Hi.
Defined.

Lemma dockerConfigureNetworkPlugin_any_plugin_witness :
  let out := run (hostRunning failing)
               (dockerConfigureNetworkPlugin (H := exampleExternals) criDocker "kubenet") tt in
  "kubenet" <> "" /\
  exists pre i, trace out = pre ++ [i] /\ no_failure pre /\ failure i <> None.
Proof.
  cbv zeta. split; [discriminate |].
  apply (proj1 (proj2 (proj2 (dockerConfigureNetworkPlugin_any_plugin
                                (H := exampleExternals) criDocker "kubenet" _ _
                                ltac:(discriminate)
                                (run_exec (hostRunning failing)
                                   (dockerConfigureNetworkPlugin
                                      (H := exampleExternals) criDocker "kubenet") tt))))
           (ErrWrap someErr "failed to create directory")).
  reflexivity.
Defined.
